(** * python-iptables: a shallow embedding of [iptables.py]

    The module is a thin wrapper over the [iptables] command line tool:
    it spawns the tool, captures its streams and parses the listing
    output into tuples of tokens.

    Modelling conventions.
    - The module is Python 2 code (its docstrings use the [print]
      statement).  There the pipes of [subprocess.Popen] deliver [str],
      the 8-bit string type, which is an instance of [six.string_types].
      A Python string is a [string] here, one [ascii] per byte.
    - An exit status is a [Z] ([Popen.returncode] is negative when the
      child was killed by a signal).
    - A Python computation that may raise is an [outcome]; one that also
      talks to the external tool is a function of the interpreter state
      [st], which holds the outside world, the argument vectors spawned so
      far and the records handed to the logger.
    - A generator is run to exhaustion: the model gives the values it
      yields and the exception, if any, that ends it. *)

From Stdlib Require Import String Ascii List ZArith Lia Bool.
From Stdlib Require Import DecimalString.
Import ListNotations.

Local Open Scope string_scope.
Local Open Scope list_scope.

(** ** Exceptions *)

Inductive exn : Type :=
| CommandError (command : list string) (returncode : Z) (stdout stderr : string)
| IndexError
| ValueError (msg : string)
| KeyError (key : string)
| AttributeError
| TypeError.

Definition is_CommandError (e : exn) : bool :=
  match e with
  | CommandError _ _ _ _ => true
  | _ => false
  end.

Inductive outcome (A : Type) : Type :=
| Ret (a : A)
| Raise (e : exn).

Arguments Ret {A} a.
Arguments Raise {A} e.

Definition obind {A B} (x : outcome A) (f : A -> outcome B) : outcome B :=
  match x with
  | Ret a => f a
  | Raise e => Raise e
  end.

(** ** Built-in string operations *)

Module Py.

Definition LF : ascii := "010"%char.
Definition CR : ascii := "013"%char.
Definition TAB : ascii := "009"%char.
Definition SPACE : ascii := " "%char.
Definition SQUOTE : ascii := "'"%char.
Definition DQUOTE : ascii := "034"%char.
Definition BACKSLASH : ascii := "\"%char.

(** [c in s] for a one-character [c]. *)
Fixpoint char_in (c : ascii) (s : string) : bool :=
  match s with
  | EmptyString => false
  | String d s' => Ascii.eqb c d || char_in c s'
  end.

(** [sep.join(l)] *)
Definition join (sep : string) (l : list string) : string :=
  String.concat sep l.

(** [s.splitlines()] on an 8-bit string: a line ends at LF, CR or
    CR LF; the text after the last line end is a line of its own only
    when it is not empty.  [cur] is the line read so far. *)
Fixpoint splitlines_from (cur : string) (s : string) : list string :=
  match s with
  | EmptyString => if String.eqb cur "" then [] else [cur]
  | String c rest =>
      if Ascii.eqb c LF then cur :: splitlines_from "" rest
      else if Ascii.eqb c CR then
        match rest with
        | String c' rest' =>
            if Ascii.eqb c' LF then cur :: splitlines_from "" rest'
            else cur :: splitlines_from "" rest
        | EmptyString => cur :: splitlines_from "" rest
        end
      else splitlines_from (cur ++ String c "") rest
  end.

Definition splitlines (s : string) : list string := splitlines_from "" s.

(** [str(n)] and the [%d] conversion of an integer. *)
Definition str_of_int (n : Z) : string :=
  NilZero.string_of_int (Z.to_int n).

(** [t[i]] on a tuple or list. *)
Definition index {A} (t : list A) (i : nat) : outcome A :=
  match nth_error t i with
  | Some x => Ret x
  | None => Raise IndexError
  end.

(** [t[i:]] *)
Definition slice_from {A} (t : list A) (i : nat) : list A := skipn i t.

End Py.

(** ** [shlex.split(s)]

    The standard library's lexer, as [shlex.split] configures it: POSIX
    mode, [whitespace_split] set, no comment characters, no punctuation
    characters.  [shlex.read_token] is a loop over the characters of the
    input that keeps the current token, the lexer state, the state to
    return to after an escape and whether a quote was seen; [list(lex)]
    calls it until it returns the end-of-file marker [None]. *)

Module Shlex.

Definition whitespace : string :=
  String Py.SPACE (String Py.TAB (String Py.CR (String Py.LF ""))).
Definition quotes : string := String Py.SQUOTE (String Py.DQUOTE "").
Definition escape : string := String Py.BACKSLASH "".
Definition escapedquotes : string := String Py.DQUOTE "".

(** [wordchars] in POSIX mode: ASCII letters, digits, underscore and
    the Latin-1 letters (bytes 0xC0-0xFF but for 0xD7 and 0xF7). *)
Definition in_wordchars (c : ascii) : bool :=
  let n := nat_of_ascii c in
  (((97 <=? n) && (n <=? 122)) || ((65 <=? n) && (n <=? 90))
   || ((48 <=? n) && (n <=? 57)) || (n =? 95)
   || ((192 <=? n) && negb (n =? 215) && negb (n =? 247)))%nat.

(** The lexer's [state] attribute: [' '], ['a'], an opening quote or
    the escape character.  ([None], past end of file, is only set when
    the input is exhausted; see [at_eof].) *)
Inductive state : Type :=
| InSpace
| InWord
| InQuote (q : ascii)
| InEscape (e : ascii).

Definition add (token : string) (c : ascii) : string :=
  token ++ String c "".

(** The end of [read_token]: [result] is the token, or [None] when it is
    empty and no quote was seen. *)
Definition result (token : string) (quoted : bool) : option string :=
  if negb quoted && String.eqb token "" then None else Some token.

(** End of input.  In the states [' '] and ['a'] the lexer sets its
    state to [None] and returns the token; the call after that one
    returns [None], which ends the iteration. *)
Definition at_eof (st : state) (token : string) (quoted : bool)
  : outcome (list string) :=
  match st with
  | InSpace | InWord =>
      match result token quoted with
      | Some t => Ret [t]
      | None => Ret []
      end
  | InQuote _ => Raise (ValueError "No closing quotation")
  | InEscape _ => Raise (ValueError "No escaped character")
  end.

(** A [break] in [read_token] followed by the next call of it: the
    token is delivered and [rest] is what the following calls deliver.
    A [None] result ends the iteration whatever the input still holds. *)
Definition emit (token : string) (quoted : bool)
  (rest : outcome (list string)) : outcome (list string) :=
  match result token quoted with
  | Some t => obind rest (fun ts => Ret (t :: ts))
  | None => Ret []
  end.

(** The character loop.  [escapedstate], [token] and [quoted] are the
    variables of the same names. *)
Fixpoint lex (input : string) (st escapedstate : state)
  (token : string) (quoted : bool) : outcome (list string) :=
  match input with
  | EmptyString => at_eof st token quoted
  | String nextchar input' =>
      match st with
      | InSpace =>
          if Py.char_in nextchar whitespace then
            if negb (String.eqb token "") || quoted
            then emit token quoted (lex input' InSpace InSpace "" false)
            else lex input' InSpace escapedstate token quoted
          else if Py.char_in nextchar escape then
            lex input' (InEscape nextchar) InWord token quoted
          else if in_wordchars nextchar then
            lex input' InWord escapedstate (String nextchar "") quoted
          else if Py.char_in nextchar quotes then
            lex input' (InQuote nextchar) escapedstate token quoted
          else (* whitespace_split *)
            lex input' InWord escapedstate (String nextchar "") quoted
      | InQuote q =>
          if Ascii.eqb nextchar q then
            lex input' InWord escapedstate token true
          else if Py.char_in nextchar escape && Py.char_in q escapedquotes then
            lex input' (InEscape nextchar) (InQuote q) token true
          else
            lex input' (InQuote q) escapedstate (add token nextchar) true
      | InEscape e =>
          let token :=
            match escapedstate with
            | InQuote q =>
                if negb (Ascii.eqb nextchar e) && negb (Ascii.eqb nextchar q)
                then add token e else token
            | _ => token
            end in
          lex input' escapedstate escapedstate (add token nextchar) quoted
      | InWord =>
          if Py.char_in nextchar whitespace then
            if negb (String.eqb token "") || quoted
            then emit token quoted (lex input' InSpace InSpace "" false)
            else lex input' InSpace escapedstate token quoted
          else if Py.char_in nextchar quotes then
            lex input' (InQuote nextchar) escapedstate token quoted
          else if Py.char_in nextchar escape then
            lex input' (InEscape nextchar) InWord token quoted
          else (* in wordchars, or whitespace_split *)
            lex input' InWord escapedstate (add token nextchar) quoted
      end
  end.

Definition split (s : string) : outcome (list string) :=
  lex s InSpace InSpace "" false.

End Shlex.

(** ** [class Rule(tuple)] *)

Definition Rule : Type := list string.

(** What a caller may pass to [Rule(...)]: a string or a sequence of
    strings. *)
Inductive arg : Type :=
| Str (s : string)
| Seq (l : list string).

(** [Rule.__new__(cls, *args)] *)
Definition Rule_new (args : list arg) : outcome Rule :=
  match args with
  | [] => Raise IndexError                     (* args[0] *)
  | Str s :: _ => Shlex.split s                (* args = (shlex.split(args[0]),) *)
  | [Seq l] => Ret l
  | Seq _ :: _ :: _ => Raise TypeError         (* tuple() takes one argument *)
  end.

Arguments Rule_new : simpl never.

(** [Rule.__str__] *)
Definition Rule_str (self : Rule) : string := Py.join " " self.

(** ** The process invoker *)

(** A child process that has exited: [p.returncode] and the pair
    [(out, err)] that [p.communicate()] returns. *)
Record completed : Type := Completed {
  p_returncode : Z;
  p_out : string;
  p_err : string
}.

(** What [LOG.debug(fmt, *args)] receives; the logger formats lazily. *)
Inductive logarg : Type :=
| LogInt (n : Z)
| LogStr (s : string).

Record logrecord : Type := LogRecord {
  log_fmt : string;
  log_args : list logarg
}.

(** ** [class Table], [class Chain] and [class ChainFinder]

    [Table.__init__] stores the table's name and
    [functools.partial(cmd, *iptables_args)]; the namespace is not
    kept.  [self.chains] is a [ChainFinder] on the table itself. *)
Record Table : Type := {
  name : string;
  iptables_args : list string
}.

Definition Table_init (name : string) (netns : option string) : Table :=
  let prefix :=
    match netns with
    | Some ns => ["ip"; "netns"; "exec"; ns]
    | None => []
    end in
  {| name := name;
     iptables_args := prefix ++ ["iptables"; "-w"; "-t"; name] |}.

(** [Chain.__init__(self, name, table)]; [self.iptables] is
    [table.iptables]. *)
Record Chain : Type := {
  chain_name : string;
  chain_table : Table
}.

Record ChainFinder : Type := { finder_table : Table }.

Definition Chain_str (self : Chain) : string :=
  ("<Chain " ++ name (chain_table self) ++ ":" ++ chain_name self ++ ">")%string.

Definition Table_str (self : Table) : string :=
  ("<Table " ++ name self ++ ">")%string.

(** Attribute lookup on a [Table] object: the attributes that
    [__init__] sets, then the methods of the class.  (The names that
    every object inherits all begin with two underscores.) *)
Inductive attr_value : Type :=
| AttrStr (s : string)
| AttrPartial (args : list string)
| AttrFinder (finder : ChainFinder)
| AttrMethod (method : string).

Definition Table_methods : list string :=
  ["__init__"; "__str__"; "__repr__"; "chain_exists"; "list_chains";
   "get_chain"; "create_chain"; "delete_chain"; "flush_chain";
   "flush_all"; "zero_all"; "rule_exists"].

Definition Table_getattr (self : Table) (attr : string) : outcome attr_value :=
  if String.eqb attr "name" then Ret (AttrStr (name self))
  else if String.eqb attr "iptables" then Ret (AttrPartial (iptables_args self))
  else if String.eqb attr "chains" then Ret (AttrFinder {| finder_table := self |})
  else if existsb (String.eqb attr) Table_methods then Ret (AttrMethod attr)
  else Raise AttributeError.

(** The tables that the module creates when it is imported. *)
Module Defaults.
Definition filter : Table := Table_init "filter" None.
Definition nat : Table := Table_init "nat" None.
Definition mangle : Table := Table_init "mangle" None.
Definition raw : Table := Table_init "raw" None.
End Defaults.

(** ** Vocabulary of the specification *)

(** [c.isspace()] for a character of an 8-bit string. *)
Definition isspace (c : ascii) : bool :=
  let n := nat_of_ascii c in ((n =? 32) || ((9 <=? n) && (n <=? 13)))%nat.

(** A token without whitespace. *)
Definition whitespace_free (token : string) : bool :=
  forallb (fun c => negb (isspace c)) (list_ascii_of_string token).

(** A character that the lexer copies into the token as it is: neither
    one of its separators, nor a quote, nor the escape character. *)
Definition plain_char (c : ascii) : bool :=
  negb (Py.char_in c Shlex.whitespace)
  && negb (Py.char_in c Shlex.quotes)
  && negb (Py.char_in c Shlex.escape).

(** A token that is not empty and is made of such characters. *)
Definition plain_token (token : string) : bool :=
  negb (String.eqb token "") && forallb plain_char (list_ascii_of_string token).

(** The subcommands of the tool that the module uses. *)
Definition subcommands : list string :=
  ["-S"; "-C"; "-P"; "-A"; "-I"; "-R"; "-Z"; "-D"; "-F"; "-N"; "-X"].

(** The tokens that [Table.__init__] puts before the tool's name. *)
Definition namespace_prefix (netns : option string) : list string :=
  match netns with
  | Some ns => ["ip"; "netns"; "exec"; ns]
  | None => []
  end.

(** The argument vectors that a table named [table], in the namespace
    [netns] if there is one, hands to the process invoker. *)
Definition invocation_shape (table : string) (netns : option string)
  (argv : list string) : Prop :=
  exists subcommand rest,
    In subcommand subcommands /\
    argv = namespace_prefix netns
             ++ ["iptables"; "-w"; "-t"; table; subcommand] ++ rest.

(** The shape with a namespace prefix of three tokens in all, present
    exactly when a namespace is configured. *)
Definition three_token_prefix_shape (table : string) (netns : option string)
  (argv : list string) : Prop :=
  exists prefix tool subcommand rest,
    argv = prefix ++ [tool; "-w"; "-t"; table; subcommand] ++ rest /\
    length prefix = match netns with Some _ => 3 | None => 0 end.

(** [line] is a default-policy line of the chain [chain], with the
    policy [value]. *)
Definition policy_line (chain value : string) (line : string) : Prop :=
  exists more, Rule_new [Str line] = Ret ("-P" :: chain :: value :: more).

(** The methods of the three classes, with their arguments; a method of
    [Chain] is called on the chain of the given name in the table. *)
Inductive call : Type :=
| Chain_rules_call (chain : string)
| Chain_rule_exists_call (chain : string) (rule : Rule)
| Chain_policy_call (chain : string)
| Chain_set_policy_call (chain value : string)
| Chain_append_call (chain : string) (rule : Rule)
| Chain_insert_call (chain : string) (rule : Rule) (pos : Z)
| Chain_replace_call (chain : string) (pos : Z) (rule : Rule)
| Chain_zero_call (chain : string)
| Chain_delete_call (chain : string) (rule : option Rule) (pos : option Z)
| Chain_flush_call (chain : string)
| Table_chain_exists_call (chain : string)
| Table_list_chains_call
| Table_get_chain_call (chain : string)
| Table_create_chain_call (chain : string)
| Table_delete_chain_call (chain : string)
| Table_flush_chain_call (chain : string)
| Table_flush_all_call
| Table_zero_all_call
| Table_rule_exists_call (chain : string) (rule : Rule)
| ChainFinder_getitem_call (k : string)
| ChainFinder_keys_call
| ChainFinder_iter_call.

(** An outside world where every command ends the same way. *)
Definition always (p : completed) : list string -> unit -> completed * unit :=
  fun _ w => (p, w).

(** The text made of the given lines, each ended by a line feed. *)
Definition lines_text (lines : list string) : string :=
  String.concat "" (map (fun line => (line ++ String Py.LF "")%string) lines).

(** A small stand-in for the tool, to run the module against: the
    outside world is the list of the chains that were created; [-N]
    creates a chain unless it is there already, [-S] with a chain lists
    it if it is there, and anything else is refused. *)
Definition tool (args : list string) (chains : list string)
  : completed * list string :=
  match args with
  | ["iptables"; "-w"; "-t"; _; "-N"; chain] =>
      if existsb (String.eqb chain) chains
      then (Completed 1 "" "iptables: Chain already exists.", chains)
      else (Completed 0 "" "", chains ++ [chain])
  | ["iptables"; "-w"; "-t"; _; "-S"; chain] =>
      if existsb (String.eqb chain) chains
      then (Completed 0 (lines_text [("-N " ++ chain)%string]) "", chains)
      else (Completed 1 "" "iptables: No chain/target/match by that name.", chains)
  | _ => (Completed 2 "" "iptables: not supported", chains)
  end.

Section Invoker.

(** The outside world (the kernel's firewall state, the file system,
    ...) and what spawning a command with an argument vector and
    waiting for it does to it:
    [subprocess.Popen(args, stdout=PIPE, stderr=PIPE)] followed by
    [p.communicate()], for a child that starts and exits. *)
Variable World : Type.
Variable spawn : list string -> World -> completed * World.

Record st : Type := St {
  world : World;
  spawned : list (list string);
  logged : list logrecord
}.

Definition M (A : Type) : Type := st -> outcome A * st.

Definition ret {A} (a : A) : M A := fun s => (Ret a, s).

Definition raise {A} (e : exn) : M A := fun s => (Raise e, s).

Definition bind {A B} (m : M A) (f : A -> M B) : M B := fun s =>
  match m s with
  | (Ret a, s') => f a s'
  | (Raise e, s') => (Raise e, s')
  end.

Definition lift {A} (x : outcome A) : M A := fun s => (x, s).

(** [try: body / except ...: handler]; [handler e] is [None] when no
    [except] clause matches [e]. *)
Definition try_except {A} (body : M A) (handler : exn -> option (M A)) : M A :=
  fun s =>
    match body s with
    | (Ret a, s') => (Ret a, s')
    | (Raise e, s') =>
        match handler e with
        | Some h => h s'
        | None => (Raise e, s')
        end
    end.

Notation "x <- m ;; k" := (bind m (fun x => k))
  (at level 61, m at next level, right associativity).
Notation "m ;;; k" := (bind m (fun _ => k))
  (at level 61, right associativity).

Definition LOG_debug (fmt : string) (args : list logarg) : M unit := fun s =>
  (Ret tt, {| world := world s; spawned := spawned s;
              logged := logged s ++ [LogRecord fmt args] |}).

Definition Popen_communicate (args : list string) : M completed := fun s =>
  let (p, w) := spawn args (world s) in
  (Ret p, {| world := w; spawned := spawned s ++ [args];
             logged := logged s |}).

(** [CommandError.__repr__]; [__str__] returns [repr(self)]. *)
Definition CommandError_repr (returncode : Z) (stderr : string) : outcome string :=
  obind (Py.index (Py.splitlines stderr) 0) (fun first =>
  Ret ("<CommandError [" ++ Py.str_of_int returncode ++ "]: " ++ first ++ ">")%string).

Definition exn_repr (e : exn) : option (outcome string) :=
  match e with
  | CommandError _ returncode _ stderr => Some (CommandError_repr returncode stderr)
  | _ => None
  end.

(** [cmd], applied to the argument vector [args] *)
Definition cmd (args : list string) : M string :=
  LOG_debug "running command: %s" [LogStr (Py.join " " args)] ;;;
  p <- Popen_communicate args ;;
  if negb (p_returncode p =? 0)%Z then
    first <- lift (Py.index (Py.splitlines (p_err p)) 0) ;;
    LOG_debug "command failed [%d]: %s..." [LogInt (p_returncode p); LogStr first] ;;;
    raise (CommandError args (p_returncode p) (p_out p) (p_err p))
  else
    ret (p_out p).

(** The outcome of [cmd] as a function of how the child ended. *)
Definition exit_outcome (args : list string) (p : completed) : outcome string :=
  if (p_returncode p =? 0)%Z then Ret (p_out p)
  else if String.eqb (p_err p) "" then Raise IndexError
  else Raise (CommandError args (p_returncode p) (p_out p) (p_err p)).

(** ** Generators

    A generator run to exhaustion: the values yielded, in order, and the
    exception that ended it, if one did. *)
Definition gen (X : Type) : Type := st -> (list X * option exn) * st.

Definition yield_first {X} (x : X) (r : (list X * option exn) * st)
  : (list X * option exn) * st :=
  let '((xs, e), s) := r in ((x :: xs, e), s).

(** [for line in lines: body], where the body of the loop either goes
    on to the next line ([Ret None]), yields one value ([Ret (Some x)])
    or raises. *)
Fixpoint for_lines {X} (body : string -> outcome (option X))
  (lines : list string) : list X * option exn :=
  match lines with
  | [] => ([], None)
  | line :: lines' =>
      match body line with
      | Raise e => ([], Some e)
      | Ret None => for_lines body lines'
      | Ret (Some x) =>
          let (xs, e) := for_lines body lines' in (x :: xs, e)
      end
  end.

(** [for line in m.splitlines(): body] inside a generator: the command
    [m] runs when the generator is first advanced. *)
Definition for_splitlines {X} (m : M string)
  (body : string -> outcome (option X)) : gen X := fun s =>
  match m s with
  | (Ret out, s') => (for_lines body (Py.splitlines out), s')
  | (Raise e, s') => (([], Some e), s')
  end.

(** [for x in g: yield f(x)].  The values of [g] are consumed one at a
    time, so a failure of [f] ends the loop before [g] is advanced
    again; [g] itself only computes on the lines it has read once its
    command has run, so advancing it between two calls of [f] changes
    nothing in the state. *)
Fixpoint for_each {X Y} (f : X -> M Y) (xs : list X) (last : option exn) : gen Y :=
  fun s =>
    match xs with
    | [] => (([], last), s)
    | x :: xs' =>
        match f x s with
        | (Ret y, s') => yield_first y (for_each f xs' last s')
        | (Raise e, s') => (([], Some e), s')
        end
    end.

Definition gen_map {X Y} (f : X -> M Y) (g : gen X) : gen Y := fun s =>
  let '((xs, last), s') := g s in for_each f xs last s'.

(** [self.iptables], applied to [args] *)
Definition iptables (self : Table) (args : list string) : M string :=
  cmd (iptables_args self ++ args).

Definition Chain_iptables (self : Chain) (args : list string) : M string :=
  iptables (chain_table self) args.

(** [Chain.rules] *)
Definition Chain_rules (self : Chain) : gen Rule :=
  for_splitlines (Chain_iptables self ["-S"; chain_name self]) (fun rule =>
    obind (Rule_new [Str rule]) (fun rule =>
    obind (Py.index rule 0) (fun r0 =>
    if negb (String.eqb r0 "-A") then Ret None
    else obind (Rule_new [Seq (Py.slice_from rule 2)]) (fun r => Ret (Some r))))).

(** [Chain.rule_exists] *)
Definition Chain_rule_exists (self : Chain) (rule : Rule) : M bool :=
  try_except
    (Chain_iptables self ("-C" :: chain_name self :: rule) ;;; ret true)
    (fun err =>
       match err with
       | CommandError _ returncode _ _ =>
           Some (if negb (returncode =? 1)%Z then raise err else ret false)
       | _ => None
       end).

(** The loop of the [policy] getter over the listing's lines; running
    off the end of the loop reaches the [raise]. *)
Fixpoint policy_scan (lines : list string) : outcome string :=
  match lines with
  | [] => Raise (ValueError "chain does not have default policy")
  | rule :: lines' =>
      obind (Rule_new [Str rule]) (fun rule =>
      obind (Py.index rule 0) (fun r0 =>
      if String.eqb r0 "-P" then Py.index rule 2
      else policy_scan lines'))
  end.

(** [Chain.policy], read *)
Definition Chain_policy (self : Chain) : M string :=
  out <- Chain_iptables self ["-S"; chain_name self] ;;
  lift (policy_scan (Py.splitlines out)).

(** [Chain.policy], assigned *)
Definition Chain_set_policy (self : Chain) (value : string) : M unit :=
  Chain_iptables self ["-P"; chain_name self; value] ;;; ret tt.

Definition Chain_append (self : Chain) (rule : Rule) : M unit :=
  Chain_iptables self ("-A" :: chain_name self :: rule) ;;; ret tt.

(** [Chain.insert(rule, pos=1)] *)
Definition Chain_insert (self : Chain) (rule : Rule) (pos : Z) : M unit :=
  Chain_iptables self ("-I" :: chain_name self :: Py.str_of_int pos :: rule) ;;; ret tt.

Definition Chain_replace (self : Chain) (pos : Z) (rule : Rule) : M unit :=
  Chain_iptables self ("-R" :: chain_name self :: Py.str_of_int pos :: rule) ;;; ret tt.

Definition Chain_zero (self : Chain) : M unit :=
  Chain_iptables self ["-Z"; chain_name self] ;;; ret tt.

(** [Chain.delete(rule=None, pos=None)] *)
Definition Chain_delete (self : Chain) (rule : option Rule) (pos : option Z) : M unit :=
  match rule, pos with
  | Some rule, _ =>
      Chain_iptables self ("-D" :: chain_name self :: rule) ;;; ret tt
  | None, Some pos =>
      Chain_iptables self ["-D"; chain_name self; Py.str_of_int pos] ;;; ret tt
  | None, None =>
      raise (ValueError "requires either rule or position")
  end.

Definition Chain_flush (self : Chain) : M unit :=
  Chain_iptables self ["-F"; chain_name self] ;;; ret tt.

(** [Table.chain_exists] *)
Definition Table_chain_exists (self : Table) (chain : string) : M bool :=
  try_except
    (iptables self ["-S"; chain] ;;; ret true)
    (fun err =>
       match err with
       | CommandError _ _ _ _ => Some (ret false)
       | _ => None
       end).

(** [Table.list_chains] *)
Definition Table_list_chains (self : Table) : gen string :=
  for_splitlines (iptables self ["-S"]) (fun rule =>
    obind (Rule_new [Str rule]) (fun rule =>
    obind (Py.index rule 0) (fun r0 =>
    if String.eqb r0 "-P" || String.eqb r0 "-N"
    then obind (Py.index rule 1) (fun chain => Ret (Some chain))
    else Ret None))).

(** [Table.get_chain] *)
Definition Table_get_chain (self : Table) (chain : string) : M Chain :=
  found <- Table_chain_exists self chain ;;
  if negb found then raise (KeyError chain)
  else ret {| chain_name := chain; chain_table := self |}.

(** [ChainFinder.__getitem__], [keys] and [__iter__] *)
Definition ChainFinder_getitem (self : ChainFinder) (k : string) : M Chain :=
  Table_get_chain (finder_table self) k.

Definition ChainFinder_keys (self : ChainFinder) : gen string :=
  Table_list_chains (finder_table self).

Definition ChainFinder_iter (self : ChainFinder) : gen Chain :=
  gen_map (Table_get_chain (finder_table self)) (ChainFinder_keys self).

(** [v[k]] for a string [k]: only the chain finder can be subscripted
    by a name. *)
Definition getitem (v : attr_value) (k : string) : M Chain :=
  match v with
  | AttrFinder finder => ChainFinder_getitem finder k
  | _ => raise TypeError
  end.

(** [Table.create_chain] *)
Definition Table_create_chain (self : Table) (chain : string) : M Chain :=
  iptables self ["-N"; chain] ;;;
  chains <- lift (Table_getattr self "chains") ;;
  getitem chains chain.

Definition Table_delete_chain (self : Table) (chain : string) : M unit :=
  iptables self ["-X"; chain] ;;; ret tt.

Definition Table_flush_chain (self : Table) (chain : string) : M unit :=
  iptables self ["-F"; chain] ;;; ret tt.

Definition Table_flush_all (self : Table) : M unit :=
  iptables self ["-F"] ;;; ret tt.

Definition Table_zero_all (self : Table) : M unit :=
  iptables self ["-Z"] ;;; ret tt.

(** [Table.rule_exists]: the chain is looked up through [self.chain]. *)
Definition Table_rule_exists (self : Table) (chain : string) (rule : Rule) : M bool :=
  finder <- lift (Table_getattr self "chain") ;;
  chain <- getitem finder chain ;;
  Chain_rule_exists chain rule.

(** The state after the call [c] on the table [self]; a generator is
    run to its end. *)
Definition after (self : Table) (c : call) (s : st) : st :=
  let chain n := {| chain_name := n; chain_table := self |} in
  let finder := {| finder_table := self |} in
  match c with
  | Chain_rules_call n => snd (Chain_rules (chain n) s)
  | Chain_rule_exists_call n rule => snd (Chain_rule_exists (chain n) rule s)
  | Chain_policy_call n => snd (Chain_policy (chain n) s)
  | Chain_set_policy_call n value => snd (Chain_set_policy (chain n) value s)
  | Chain_append_call n rule => snd (Chain_append (chain n) rule s)
  | Chain_insert_call n rule pos => snd (Chain_insert (chain n) rule pos s)
  | Chain_replace_call n pos rule => snd (Chain_replace (chain n) pos rule s)
  | Chain_zero_call n => snd (Chain_zero (chain n) s)
  | Chain_delete_call n rule pos => snd (Chain_delete (chain n) rule pos s)
  | Chain_flush_call n => snd (Chain_flush (chain n) s)
  | Table_chain_exists_call n => snd (Table_chain_exists self n s)
  | Table_list_chains_call => snd (Table_list_chains self s)
  | Table_get_chain_call n => snd (Table_get_chain self n s)
  | Table_create_chain_call n => snd (Table_create_chain self n s)
  | Table_delete_chain_call n => snd (Table_delete_chain self n s)
  | Table_flush_chain_call n => snd (Table_flush_chain self n s)
  | Table_flush_all_call => snd (Table_flush_all self s)
  | Table_zero_all_call => snd (Table_zero_all self s)
  | Table_rule_exists_call n rule => snd (Table_rule_exists self n rule s)
  | ChainFinder_getitem_call k => snd (ChainFinder_getitem finder k s)
  | ChainFinder_keys_call => snd (ChainFinder_keys finder s)
  | ChainFinder_iter_call => snd (ChainFinder_iter finder s)
  end.

(** How the child spawned with [args] in the state [s] ends. *)
Definition completes (args : list string) (s : st) : completed :=
  fst (spawn args (world s)).

(** In the state [s], the tool's listing command with the arguments
    [args] exits with status zero and prints the lines [lines]. *)
Definition listing_is (self : Table) (s : st) (args : list string)
  (lines : list string) : Prop :=
  p_returncode (completes (iptables_args self ++ args) s) = 0%Z
  /\ Py.splitlines (p_out (completes (iptables_args self ++ args) s)) = lines.

(** [s'] is [s] after some commands that all satisfy [P]. *)
Definition spawns (P : list string -> Prop) (s s' : st) : Prop :=
  exists new, spawned s' = spawned s ++ new /\ Forall P new.

(** Whatever the state it starts in, [m] only runs commands that
    satisfy [P]. *)
Definition runs {R} (P : list string -> Prop) (m : st -> R * st) : Prop :=
  forall s, spawns P s (snd (m s)).

(** ** Vocabulary for the listing parsers *)

(** The tuple [tokens] starts with the directive [d]. *)
Definition directive_is (d : string) (tokens : list string) : bool :=
  match tokens with
  | d' :: _ => String.eqb d' d
  | [] => false
  end.

(** Each line splits into the tokens beside it. *)
Definition tokenized (lines : list string) (tokens : list (list string)) : Prop :=
  Forall2 (fun line t => Rule_new [Str line] = Ret t) lines tokens.

(** A string without a quote and without a backslash. *)
Definition quote_free (s : string) : bool :=
  forallb (fun c => negb (Py.char_in c Shlex.quotes)
                    && negb (Py.char_in c Shlex.escape))
          (list_ascii_of_string s).

(** The arguments, after those bound by the table, of the one command
    that a method runs; [None] for the methods that may run none or
    several. *)
Definition single_command (c : call) : option (list string) :=
  match c with
  | Chain_rules_call n => Some ["-S"; n]
  | Chain_rule_exists_call n rule => Some ("-C" :: n :: rule)
  | Chain_policy_call n => Some ["-S"; n]
  | Chain_set_policy_call n value => Some ["-P"; n; value]
  | Chain_append_call n rule => Some ("-A" :: n :: rule)
  | Chain_insert_call n rule pos => Some ("-I" :: n :: Py.str_of_int pos :: rule)
  | Chain_replace_call n pos rule => Some ("-R" :: n :: Py.str_of_int pos :: rule)
  | Chain_zero_call n => Some ["-Z"; n]
  | Chain_delete_call n (Some rule) _ => Some ("-D" :: n :: rule)
  | Chain_delete_call n None (Some pos) => Some ["-D"; n; Py.str_of_int pos]
  | Chain_delete_call n None None => None
  | Chain_flush_call n => Some ["-F"; n]
  | Table_chain_exists_call n => Some ["-S"; n]
  | Table_list_chains_call => Some ["-S"]
  | Table_get_chain_call n => Some ["-S"; n]
  | Table_create_chain_call n => None
  | Table_delete_chain_call n => Some ["-X"; n]
  | Table_flush_chain_call n => Some ["-F"; n]
  | Table_flush_all_call => Some ["-F"]
  | Table_zero_all_call => Some ["-Z"]
  | Table_rule_exists_call n rule => None
  | ChainFinder_getitem_call k => Some ["-S"; k]
  | ChainFinder_keys_call => Some ["-S"]
  | ChainFinder_iter_call => None
  end.

(** The methods that return nothing, as computations. *)
Definition write_call (self : Table) (c : call) : option (M unit) :=
  let chain n := {| chain_name := n; chain_table := self |} in
  match c with
  | Chain_set_policy_call n value => Some (Chain_set_policy (chain n) value)
  | Chain_append_call n rule => Some (Chain_append (chain n) rule)
  | Chain_insert_call n rule pos => Some (Chain_insert (chain n) rule pos)
  | Chain_replace_call n pos rule => Some (Chain_replace (chain n) pos rule)
  | Chain_zero_call n => Some (Chain_zero (chain n))
  | Chain_delete_call n rule pos => Some (Chain_delete (chain n) rule pos)
  | Chain_flush_call n => Some (Chain_flush (chain n))
  | Table_delete_chain_call n => Some (Table_delete_chain self n)
  | Table_flush_chain_call n => Some (Table_flush_chain self n)
  | Table_flush_all_call => Some (Table_flush_all self)
  | Table_zero_all_call => Some (Table_zero_all self)
  | _ => None
  end.

(** Whatever the state it starts in, [m] runs the commands [new], in
    that order, and no other. *)
Definition grows_by {R} (new : list (list string)) (m : st -> R * st) : Prop :=
  forall s, spawned (snd (m s)) = spawned s ++ new.

(** The state in which [cmd] leaves the outside world and the list of
    spawned commands; the log is that of [s]. *)
Definition spawned_state (args : list string) (s : st) : st :=
  {| world := snd (spawn args (world s));
     spawned := spawned s ++ [args];
     logged := logged s |}.

(** ** The process invoker: what [cmd] does *)

Lemma splitlines_from_nil cur text :
  Py.splitlines_from cur text = [] -> cur = "" /\ text = "".
Proof.
  revert cur; induction text as [|c rest IH]; intros cur; simpl.
  - destruct (String.eqb_spec cur ""); [auto | discriminate].
  - destruct (Ascii.eqb c Py.LF); [discriminate|].
    destruct (Ascii.eqb c Py.CR).
    + destruct rest as [|c' rest']; [discriminate|].
      destruct (Ascii.eqb c' Py.LF); discriminate.
    + intros H; apply IH in H; destruct H as [H _].
      destruct cur; discriminate.
Qed.

Lemma splitlines_nil text : Py.splitlines text = [] <-> text = "".
Proof.
  split.
  - intros H; apply splitlines_from_nil in H; tauto.
  - intros ->; reflexivity.
Qed.

Lemma index_first_empty : Py.index (Py.splitlines "") 0 = Raise IndexError.
Proof. reflexivity. Qed.

Lemma index_first_nonempty text :
  text <> "" -> exists first, Py.index (Py.splitlines text) 0 = Ret first.
Proof.
  intros H; destruct (Py.splitlines text) as [|first more] eqn:E.
  - apply splitlines_nil in E; contradiction.
  - exists first; reflexivity.
Qed.

Lemma cmd_fst args s :
  fst (cmd args s) = exit_outcome args (fst (spawn args (world s))).
Proof.
  unfold cmd, exit_outcome, bind, LOG_debug, Popen_communicate, lift, raise, ret.
  simpl. destruct (spawn args (world s)) as [p w]; simpl.
  destruct (p_returncode p =? 0)%Z; simpl; [reflexivity|].
  destruct (String.eqb_spec (p_err p) "") as [E|E].
  - rewrite E; reflexivity.
  - destruct (index_first_nonempty _ E) as [first ->]; reflexivity.
Qed.

(** Every call of [cmd] spawns its argument vector, once, however the
    child ends. *)
Lemma cmd_spawned args s :
  spawned (snd (cmd args s)) = spawned s ++ [args].
Proof.
  unfold cmd, bind, LOG_debug, Popen_communicate, lift, raise, ret.
  simpl. destruct (spawn args (world s)) as [p w]; simpl.
  destruct (p_returncode p =? 0)%Z; simpl; [reflexivity|].
  destruct (Py.index (Py.splitlines (p_err p)) 0); reflexivity.
Qed.

Lemma cmd_split args s :
  cmd args s = (exit_outcome args (fst (spawn args (world s))), snd (cmd args s)).
Proof. rewrite <- cmd_fst; destruct (cmd args s); reflexivity. Qed.

(** C2.  The outcome of [cmd] for every argument vector and every way
    the child can end: exit status zero gives the captured standard
    output; a nonzero exit status gives a [CommandError] with the
    argument vector, the status and both captured streams when the
    captured standard error is not empty, and an [IndexError] when it
    is empty. *)
Theorem cmd_outcome args s p :
  completes args s = p ->
  fst (cmd args s) =
    if (p_returncode p =? 0)%Z then Ret (p_out p)
    else if String.eqb (p_err p) "" then Raise IndexError
    else Raise (CommandError args (p_returncode p) (p_out p) (p_err p)).
Proof. intros <-; apply cmd_fst. Qed.

(** C10.  A child that exits with a nonzero status and an empty
    standard error makes [cmd] raise [IndexError], after the child has
    run once and without the failure summary being logged; the textual
    representation of a [CommandError] whose [stderr] is empty raises
    [IndexError] as well. *)
Theorem cmd_IndexError_on_empty_stderr args s p w :
  spawn args (world s) = (p, w) ->
  p_returncode p <> 0%Z ->
  p_err p = "" ->
  cmd args s =
    (Raise IndexError,
     St w (spawned s ++ [args])
          (logged s ++ [LogRecord "running command: %s" [LogStr (Py.join " " args)]]))
  /\ (forall command returncode stdout,
        exn_repr (CommandError command returncode stdout "") = Some (Raise IndexError)).
Proof.
  intros Hp Hrc Herr; split; [|reflexivity].
  unfold cmd, bind, LOG_debug, Popen_communicate, lift, raise, ret; simpl.
  rewrite Hp; simpl.
  apply Z.eqb_neq in Hrc; rewrite Hrc, Herr; reflexivity.
Qed.

(** ** Existence checks *)

Lemma iptables_split self args s :
  iptables self args s =
    (exit_outcome (iptables_args self ++ args)
       (fst (spawn (iptables_args self ++ args) (world s))),
     snd (cmd (iptables_args self ++ args) s)).
Proof. apply cmd_split. Qed.

(** C3.  The outcome of [Chain.rule_exists] for every rule and every
    way the check command can end: true for exit status zero; for a
    nonzero exit status with something on standard error, false when
    the status is 1 and the [CommandError] itself otherwise; an
    [IndexError], whatever the nonzero status, when standard error is
    empty. *)
Theorem Chain_rule_exists_outcome self rule s p :
  completes (iptables_args (chain_table self) ++ "-C" :: chain_name self :: rule) s
    = p ->
  fst (Chain_rule_exists self rule s) =
    if (p_returncode p =? 0)%Z then Ret true
    else if String.eqb (p_err p) "" then Raise IndexError
    else if (p_returncode p =? 1)%Z then Ret false
    else Raise (CommandError
                  (iptables_args (chain_table self) ++ "-C" :: chain_name self :: rule)
                  (p_returncode p) (p_out p) (p_err p)).
Proof.
  intros <-.
  unfold Chain_rule_exists, Chain_iptables, try_except, bind, completes.
  rewrite iptables_split. unfold exit_outcome.
  set (p := fst (spawn _ (world s))).
  destruct (p_returncode p =? 0)%Z; [reflexivity|].
  destruct (String.eqb (p_err p) ""); [reflexivity|].
  destruct (p_returncode p =? 1)%Z; reflexivity.
Qed.

(** C8.  The outcome of [Table.chain_exists] for every name and every
    way the probe can end: true for exit status zero; false for a
    nonzero exit status with something on standard error; an
    [IndexError] for a nonzero exit status with an empty standard
    error. *)
Theorem Table_chain_exists_outcome self chain s p :
  completes (iptables_args self ++ ["-S"; chain]) s = p ->
  fst (Table_chain_exists self chain s) =
    if (p_returncode p =? 0)%Z then Ret true
    else if String.eqb (p_err p) "" then Raise IndexError
    else Ret false.
Proof.
  intros <-.
  unfold Table_chain_exists, try_except, bind, completes.
  rewrite iptables_split. unfold exit_outcome.
  set (p := fst (spawn _ (world s))).
  destruct (p_returncode p =? 0)%Z; [reflexivity|].
  destruct (String.eqb (p_err p) ""); reflexivity.
Qed.

(** What the two checks do with the outcome of the process invoker
    itself: a [CommandError] with status 1 is the answer false of
    [Chain.rule_exists], one with another status is raised again, and
    every [CommandError] is the answer false of [Table.chain_exists]. *)
Lemma Chain_rule_exists_handles self rule s :
  let m := Chain_iptables self ("-C" :: chain_name self :: rule) in
  fst (Chain_rule_exists self rule s) =
    match fst (m s) with
    | Ret _ => Ret true
    | Raise (CommandError command returncode stdout stderr) =>
        if (returncode =? 1)%Z then Ret false
        else Raise (CommandError command returncode stdout stderr)
    | Raise e => Raise e
    end.
Proof.
  intros m. unfold Chain_rule_exists, try_except, bind. fold m.
  destruct (m s) as [[out|e] s']; simpl; [reflexivity|].
  destruct e; try reflexivity.
  destruct (returncode =? 1)%Z; reflexivity.
Qed.

Lemma Table_chain_exists_handles self chain s :
  fst (Table_chain_exists self chain s) =
    match fst (iptables self ["-S"; chain] s) with
    | Ret _ => Ret true
    | Raise (CommandError _ _ _ _) => Ret false
    | Raise e => Raise e
    end.
Proof.
  unfold Table_chain_exists, try_except, bind.
  destruct (iptables self ["-S"; chain] s) as [[out|e] s']; simpl; [reflexivity|].
  destruct e; reflexivity.
Qed.

(** C1.  [Table.rule_exists] raises [AttributeError] for every chain
    name and rule, before any chain is looked up and without running a
    command: a table has the attribute [chains], none called [chain]. *)
Theorem Table_rule_exists_raises self chain rule s :
  Table_rule_exists self chain rule s = (Raise AttributeError, s)
  /\ Table_getattr self "chain" = Raise AttributeError
  /\ Table_getattr self "chains" = Ret (AttrFinder {| finder_table := self |}).
Proof. repeat split. Qed.

(** ** Reading the listing *)

Lemma iptables_listing self args lines s :
  listing_is self s args lines ->
  exists out s',
    iptables self args s = (Ret out, s') /\ Py.splitlines out = lines.
Proof.
  unfold listing_is, completes.
  intros [Hrc Hlines]. rewrite iptables_split. unfold exit_outcome.
  rewrite Hrc; simpl. eauto.
Qed.

(** C5.  When the listing commands of a table print the three lines
    [-P INPUT ACCEPT], [-N LOGGING] and [-A INPUT -j LOGGING]:
    [list_chains] yields [INPUT] then [LOGGING] and ends; the [rules]
    of the chain [INPUT] yield the one rule [-j LOGGING] and end; the
    [policy] of the chain [INPUT] is [ACCEPT]. *)
Theorem listing_of_three_lines self s :
  listing_is self s ["-S"]
    ["-P INPUT ACCEPT"; "-N LOGGING"; "-A INPUT -j LOGGING"] ->
  listing_is self s ["-S"; "INPUT"]
    ["-P INPUT ACCEPT"; "-N LOGGING"; "-A INPUT -j LOGGING"] ->
  fst (Table_list_chains self s) = (["INPUT"; "LOGGING"], None)
  /\ fst (Chain_rules {| chain_name := "INPUT"; chain_table := self |} s)
     = ([["-j"; "LOGGING"]], None)
  /\ fst (Chain_policy {| chain_name := "INPUT"; chain_table := self |} s)
     = Ret "ACCEPT".
Proof.
  intros Htable Hchain.
  destruct (iptables_listing _ _ _ _ Htable) as (out1 & s1 & E1 & L1).
  destruct (iptables_listing _ _ _ _ Hchain) as (out2 & s2 & E2 & L2).
  repeat split.
  - unfold Table_list_chains, for_splitlines. rewrite E1, L1. reflexivity.
  - unfold Chain_rules, for_splitlines, Chain_iptables; simpl chain_table.
    simpl chain_name. rewrite E2, L2. reflexivity.
  - unfold Chain_policy, Chain_iptables, bind, lift; simpl chain_table.
    simpl chain_name. rewrite E2, L2. reflexivity.
Qed.

(** ** The argument vectors handed to the invoker *)

Section Shape.

Variable P : list string -> Prop.

Lemma spawns_refl s : spawns P s s.
Proof. exists []; split; [symmetry; apply app_nil_r | constructor]. Qed.

Lemma spawns_trans s1 s2 s3 :
  spawns P s1 s2 -> spawns P s2 s3 -> spawns P s1 s3.
Proof.
  intros (n1 & E1 & F1) (n2 & E2 & F2). exists (n1 ++ n2); split.
  - rewrite E2, E1; symmetry; apply app_assoc.
  - apply Forall_app; split; assumption.
Qed.

Lemma runs_ret {A} (a : A) : runs P (ret a).
Proof. intros s; apply spawns_refl. Qed.

Lemma runs_raise {A} e : runs P (raise e : M A).
Proof. intros s; apply spawns_refl. Qed.

Lemma runs_lift {A} (x : outcome A) : runs P (lift x).
Proof. intros s; apply spawns_refl. Qed.

Lemma runs_bind {A B} (m : M A) (f : A -> M B) :
  runs P m -> (forall a, runs P (f a)) -> runs P (bind m f).
Proof.
  intros Hm Hf s; unfold bind.
  specialize (Hm s); destruct (m s) as [[a|e] s']; simpl in *.
  - eapply spawns_trans; [exact Hm | apply Hf].
  - exact Hm.
Qed.

Lemma runs_try_except {A} (body : M A) handler :
  runs P body ->
  (forall e h, handler e = Some h -> runs P h) ->
  runs P (try_except body handler).
Proof.
  intros Hb Hh s; unfold try_except.
  specialize (Hb s); destruct (body s) as [[a|e] s']; simpl in *.
  - exact Hb.
  - destruct (handler e) as [h|] eqn:E; simpl.
    + eapply spawns_trans; [exact Hb | eapply Hh; exact E].
    + exact Hb.
Qed.

Lemma runs_cmd args : P args -> runs P (cmd args).
Proof.
  intros H s; exists [args]; split; [apply cmd_spawned | repeat constructor; exact H].
Qed.

Lemma runs_for_splitlines {X} m (body : string -> outcome (option X)) :
  runs P m -> runs P (for_splitlines m body).
Proof.
  intros Hm s; unfold for_splitlines.
  specialize (Hm s); destruct (m s) as [[out|e] s']; exact Hm.
Qed.

Lemma runs_for_each {X Y} (f : X -> M Y) xs last :
  (forall x, runs P (f x)) -> runs P (for_each f xs last).
Proof.
  intros Hf; induction xs as [|x xs IH]; intros s; simpl.
  - apply spawns_refl.
  - specialize (Hf x s); destruct (f x s) as [[y|e] s']; simpl in *.
    + specialize (IH s').
      destruct (for_each f xs last s') as [[ys e'] s'']; simpl in *.
      eapply spawns_trans; eassumption.
    + exact Hf.
Qed.

Lemma runs_gen_map {X Y} (f : X -> M Y) (g : gen X) :
  runs P g -> (forall x, runs P (f x)) -> runs P (gen_map f g).
Proof.
  intros Hg Hf s; unfold gen_map.
  specialize (Hg s); destruct (g s) as [[xs last] s']; simpl in *.
  eapply spawns_trans; [exact Hg | apply runs_for_each; exact Hf].
Qed.

End Shape.

Lemma runs_iptables table netns subcommand rest :
  In subcommand subcommands ->
  runs (invocation_shape table netns)
       (iptables (Table_init table netns) (subcommand :: rest)).
Proof.
  intros Hsub; apply runs_cmd. exists subcommand, rest; split; [exact Hsub|].
  unfold Table_init, namespace_prefix; simpl iptables_args.
  rewrite <- app_assoc; reflexivity.
Qed.

Ltac subcommand := apply runs_iptables; unfold subcommands; simpl; tauto.

Ltac as_runs :=
  match goal with
  | |- spawns ?P ?s (snd (?m ?s)) => revert s; change (runs P m)
  end.

Ltac runs_step :=
  first
    [ apply runs_ret | apply runs_raise | apply runs_lift | subcommand
    | apply runs_for_splitlines | apply runs_bind; [|intros ?]
    | apply runs_try_except; [|intros ? ? ?] ].

Lemma runs_Chain_rule_exists table netns chain rule :
  runs (invocation_shape table netns)
       (Chain_rule_exists
          {| chain_name := chain; chain_table := Table_init table netns |} rule).
Proof.
  unfold Chain_rule_exists, Chain_iptables; simpl chain_table; simpl chain_name.
  repeat runs_step.
  destruct e; try discriminate.
  match goal with H : Some _ = Some _ |- _ => injection H as <- end.
  destruct (negb _); runs_step.
Qed.

Lemma runs_Table_chain_exists table netns chain :
  runs (invocation_shape table netns)
       (Table_chain_exists (Table_init table netns) chain).
Proof.
  unfold Table_chain_exists. repeat runs_step.
  destruct e; try discriminate.
  match goal with H : Some _ = Some _ |- _ => injection H as <- end.
  runs_step.
Qed.

Lemma runs_Table_get_chain table netns chain :
  runs (invocation_shape table netns)
       (Table_get_chain (Table_init table netns) chain).
Proof.
  unfold Table_get_chain. apply runs_bind; [apply runs_Table_chain_exists|].
  intros found; destruct (negb found); runs_step.
Qed.

Lemma runs_Table_list_chains table netns :
  runs (invocation_shape table netns)
       (Table_list_chains (Table_init table netns)).
Proof. unfold Table_list_chains. repeat runs_step. Qed.

(** C7.  Every command that a method of a table, of one of its chains
    or of its chain finder runs has the argument vector
    [namespace_prefix netns ++ [iptables; -w; -t; table; subcommand]
    ++ rest]: the prefix is empty without a namespace and is the four
    tokens [ip netns exec netns] with one, and [-w] is always there. *)
Theorem invocations_have_shape table netns c s :
  spawns (invocation_shape table netns) s (after (Table_init table netns) c s).
Proof.
  destruct c; unfold after; cbv beta zeta; as_runs.
  - unfold Chain_rules, Chain_iptables; simpl chain_table; simpl chain_name.
    repeat runs_step.
  - apply runs_Chain_rule_exists.
  - unfold Chain_policy, Chain_iptables; simpl chain_table; simpl chain_name.
    repeat runs_step.
  - unfold Chain_set_policy, Chain_iptables; simpl chain_table. repeat runs_step.
  - unfold Chain_append, Chain_iptables; simpl chain_table. repeat runs_step.
  - unfold Chain_insert, Chain_iptables; simpl chain_table. repeat runs_step.
  - unfold Chain_replace, Chain_iptables; simpl chain_table. repeat runs_step.
  - unfold Chain_zero, Chain_iptables; simpl chain_table. repeat runs_step.
  - unfold Chain_delete, Chain_iptables; simpl chain_table.
    destruct rule as [rule|]; [|destruct pos as [pos|]]; repeat runs_step.
  - unfold Chain_flush, Chain_iptables; simpl chain_table. repeat runs_step.
  - apply runs_Table_chain_exists.
  - apply runs_Table_list_chains.
  - apply runs_Table_get_chain.
  - unfold Table_create_chain. apply runs_bind; [subcommand|]. intros _.
    change (runs (invocation_shape table netns)
              (Table_get_chain (Table_init table netns) chain)).
    apply runs_Table_get_chain.
  - unfold Table_delete_chain. repeat runs_step.
  - unfold Table_flush_chain. repeat runs_step.
  - unfold Table_flush_all. repeat runs_step.
  - unfold Table_zero_all. repeat runs_step.
  - intros s. apply spawns_refl.
  - apply runs_Table_get_chain.
  - apply runs_Table_list_chains.
  - unfold ChainFinder_iter, ChainFinder_keys; simpl finder_table.
    apply runs_gen_map; [apply runs_Table_list_chains|].
    intros k; apply runs_Table_get_chain.
Qed.

(** ** Further properties of the process invoker *)

(** X1.  What [cmd] does to the state, however the child ends: the
    outside world is the one the child leaves, the argument vector is
    spawned once, and the log gains the record of the command line and,
    when the exit status is not zero and standard error is not empty, the
    record of the status with the first line of standard error. *)
Theorem cmd_effect args s :
  world (snd (cmd args s)) = snd (spawn args (world s))
  /\ spawned (snd (cmd args s)) = spawned s ++ [args]
  /\ logged (snd (cmd args s))
     = logged s
       ++ LogRecord "running command: %s" [LogStr (Py.join " " args)]
          :: (if (p_returncode (completes args s) =? 0)%Z then []
              else match Py.splitlines (p_err (completes args s)) with
                   | [] => []
                   | first :: _ =>
                       [LogRecord "command failed [%d]: %s..."
                          [LogInt (p_returncode (completes args s)); LogStr first]]
                   end).
Proof.
  unfold cmd, completes, bind, LOG_debug, Popen_communicate, lift, raise, ret.
  simpl. destruct (spawn args (world s)) as [p w]; simpl.
  destruct (p_returncode p =? 0)%Z; simpl.
  - repeat split; reflexivity.
  - destruct (Py.splitlines (p_err p)) as [|first more]; simpl.
    + repeat split; reflexivity.
    + repeat split. rewrite <- app_assoc. reflexivity.
Qed.

(** X2.  The textual representation of a [CommandError] is
    [<CommandError [status]: line>] with the first line of the captured
    standard error, and it is an [IndexError] exactly when the captured
    standard error is empty. *)
Theorem CommandError_repr_by_stderr returncode stderr :
  CommandError_repr returncode stderr
  = if String.eqb stderr "" then Raise IndexError
    else Ret ("<CommandError [" ++ Py.str_of_int returncode ++ "]: "
              ++ hd "" (Py.splitlines stderr) ++ ">")%string.
Proof.
  unfold CommandError_repr.
  destruct (String.eqb_spec stderr "") as [->|E]; [reflexivity|].
  destruct (Py.splitlines stderr) as [|first more] eqn:L.
  - apply splitlines_nil in L; contradiction.
  - reflexivity.
Qed.

(** ** One command for each method *)

Lemma grows_by_cmd args : grows_by [args] (cmd args).
Proof. intros s; apply cmd_spawned. Qed.

Lemma grows_by_then {A B} new (m : M A) (f : A -> M B) :
  grows_by new m -> (forall a, grows_by [] (f a)) -> grows_by new (bind m f).
Proof.
  intros Hm Hf s; unfold bind. specialize (Hm s).
  destruct (m s) as [[a|e] s']; simpl in *; [|exact Hm].
  rewrite (Hf a s'), app_nil_r. exact Hm.
Qed.

Lemma grows_by_try {A} new (body : M A) handler :
  grows_by new body ->
  (forall e h, handler e = Some h -> grows_by [] h) ->
  grows_by new (try_except body handler).
Proof.
  intros Hb Hh s; unfold try_except. specialize (Hb s).
  destruct (body s) as [[a|e] s']; simpl in *; [exact Hb|].
  destruct (handler e) as [h|] eqn:E; simpl; [|exact Hb].
  rewrite (Hh e h E s'), app_nil_r. exact Hb.
Qed.

Lemma grows_by_ret {A} (a : A) : grows_by [] (ret a).
Proof. intros s; symmetry; apply app_nil_r. Qed.

Lemma grows_by_raise {A} e : grows_by [] (raise e : M A).
Proof. intros s; symmetry; apply app_nil_r. Qed.


Lemma grows_by_for_splitlines {X} new m (body : string -> outcome (option X)) :
  grows_by new m -> grows_by new (for_splitlines m body).
Proof.
  intros Hm s; unfold for_splitlines. specialize (Hm s).
  destruct (m s) as [[out|e] s']; exact Hm.
Qed.


Lemma grows_by_Table_chain_exists self chain :
  grows_by [iptables_args self ++ ["-S"; chain]] (Table_chain_exists self chain).
Proof.
  unfold Table_chain_exists, iptables.
  apply grows_by_try.
  - apply grows_by_then; [apply grows_by_cmd | intros; apply grows_by_ret].
  - intros e h E. destruct e; try discriminate. injection E as <-.
    apply grows_by_ret.
Qed.

Lemma grows_by_Table_get_chain self chain :
  grows_by [iptables_args self ++ ["-S"; chain]] (Table_get_chain self chain).
Proof.
  unfold Table_get_chain. apply grows_by_then; [apply grows_by_Table_chain_exists|].
  intros found; destruct (negb found); [apply grows_by_raise | apply grows_by_ret].
Qed.





(** ** Looking a chain up and creating one *)

Lemma cmd_world args s : world (snd (cmd args s)) = snd (spawn args (world s)).
Proof.
  unfold cmd, bind, LOG_debug, Popen_communicate, lift, raise, ret.
  simpl. destruct (spawn args (world s)) as [p w]; simpl.
  destruct (p_returncode p =? 0)%Z; simpl; [reflexivity|].
  destruct (Py.index (Py.splitlines (p_err p)) 0); reflexivity.
Qed.

Lemma Table_get_chain_fst self chain s :
  fst (Table_get_chain self chain s) =
    if (p_returncode (completes (iptables_args self ++ ["-S"; chain]) s) =? 0)%Z
    then Ret {| chain_name := chain; chain_table := self |}
    else if String.eqb (p_err (completes (iptables_args self ++ ["-S"; chain]) s)) ""
    then Raise IndexError
    else Raise (KeyError chain).
Proof.
  unfold Table_get_chain, Table_chain_exists, try_except, bind, completes.
  rewrite iptables_split. unfold exit_outcome.
  set (p := fst (spawn _ (world s))).
  destruct (p_returncode p =? 0)%Z; [reflexivity|].
  destruct (String.eqb (p_err p) ""); reflexivity.
Qed.

(** X4.  [Table.get_chain] answers by the exit of its probe: the chain
    of that name bound to this table for status zero, [KeyError] with the
    name for a nonzero status with something on standard error, and
    [IndexError] for a nonzero status with an empty standard error. *)
Theorem Table_get_chain_outcome self chain s p :
  completes (iptables_args self ++ ["-S"; chain]) s = p ->
  fst (Table_get_chain self chain s) =
    if (p_returncode p =? 0)%Z
    then Ret {| chain_name := chain; chain_table := self |}
    else if String.eqb (p_err p) "" then Raise IndexError
    else Raise (KeyError chain).
Proof. intros <-; apply Table_get_chain_fst. Qed.

(** X5.  [Table.create_chain] runs the [-N] command and, only when that
    one exits with status zero, the probe of [get_chain] in the world
    that the [-N] command leaves; its outcome is the error of the [-N]
    command when it fails and the outcome of [get_chain] otherwise. *)
Theorem Table_create_chain_outcome self chain s p1 p2 :
  completes (iptables_args self ++ ["-N"; chain]) s = p1 ->
  completes (iptables_args self ++ ["-S"; chain])
    (spawned_state (iptables_args self ++ ["-N"; chain]) s) = p2 ->
  fst (Table_create_chain self chain s)
  = (if (p_returncode p1 =? 0)%Z then
       if (p_returncode p2 =? 0)%Z
       then Ret {| chain_name := chain; chain_table := self |}
       else if String.eqb (p_err p2) "" then Raise IndexError
       else Raise (KeyError chain)
     else if String.eqb (p_err p1) "" then Raise IndexError
     else Raise (CommandError (iptables_args self ++ ["-N"; chain])
                   (p_returncode p1) (p_out p1) (p_err p1)))
  /\ spawned (snd (Table_create_chain self chain s))
     = spawned s
       ++ (iptables_args self ++ ["-N"; chain])
          :: (if (p_returncode p1 =? 0)%Z
              then [iptables_args self ++ ["-S"; chain]] else []).
Proof.
  intros <- <-.
  unfold Table_create_chain, bind.
  pose proof (cmd_spawned (iptables_args self ++ ["-N"; chain]) s) as Hsp.
  pose proof (cmd_world (iptables_args self ++ ["-N"; chain]) s) as Hw.
  rewrite iptables_split. unfold exit_outcome.
  fold (completes (iptables_args self ++ ["-N"; chain]) s).
  set (p1 := completes (iptables_args self ++ ["-N"; chain]) s).
  set (s1 := snd (cmd (iptables_args self ++ ["-N"; chain]) s)) in *.
  destruct (p_returncode p1 =? 0)%Z.
  - change (lift (Table_getattr self "chains") s1)
      with (Ret (AttrFinder {| finder_table := self |}), s1).
    cbv iota beta.
    change (getitem (AttrFinder {| finder_table := self |}) chain s1)
      with (Table_get_chain self chain s1).
    split.
    + rewrite Table_get_chain_fst. unfold completes, spawned_state; simpl world.
      rewrite Hw. reflexivity.
    + rewrite (grows_by_Table_get_chain self chain s1), Hsp.
      rewrite <- app_assoc. reflexivity.
  - destruct (String.eqb (p_err p1) ""); simpl; split; try reflexivity; exact Hsp.
Qed.

(** ** What the listing parsers yield *)

Lemma for_lines_app {X} (body : string -> outcome (option X)) before rest ys :
  for_lines body before = (ys, None) ->
  for_lines body (before ++ rest)
  = (ys ++ fst (for_lines body rest), snd (for_lines body rest)).
Proof.
  revert ys; induction before as [|l before IH]; intros ys; simpl.
  - intros E; injection E as <-. destruct (for_lines body rest); reflexivity.
  - destruct (body l) as [[x|]|e].
    + destruct (for_lines body before) as [xs e'] eqn:Eb.
      intros E; injection E as <- ->.
      rewrite (IH xs eq_refl). reflexivity.
    + apply IH.
    + discriminate.
Qed.

Lemma rules_of_tokens lines tokens :
  tokenized lines tokens ->
  Forall (fun t => t <> []) tokens ->
  for_lines (fun rule =>
      obind (Rule_new [Str rule]) (fun rule =>
      obind (Py.index rule 0) (fun r0 =>
      if negb (String.eqb r0 "-A") then Ret None
      else obind (Rule_new [Seq (Py.slice_from rule 2)]) (fun r => Ret (Some r)))))
    lines
  = (map (fun t => Py.slice_from t 2) (filter (directive_is "-A") tokens), None).
Proof.
  intros Htok; induction Htok as [|l t lines tokens Hl Htok IH]; intros Hne.
  - reflexivity.
  - inversion Hne as [|? ? Ht Hne']; subst.
    destruct t as [|d ops]; [contradiction|].
    cbn [for_lines]. rewrite Hl. cbn [obind Py.index nth_error].
    cbn [filter directive_is]. rewrite (IH Hne').
    destruct (String.eqb d "-A"); reflexivity.
Qed.

(** X6.  On a listing whose lines all hold at least one token, the
    [rules] of a chain yield, in the order of the lines, the tokens after
    the second of each line that begins with [-A], and nothing for the
    other lines; the generator then ends normally. *)
Theorem Chain_rules_yields self s lines tokens :
  listing_is (chain_table self) s ["-S"; chain_name self] lines ->
  tokenized lines tokens ->
  Forall (fun t => t <> []) tokens ->
  fst (Chain_rules self s)
  = (map (fun t => Py.slice_from t 2) (filter (directive_is "-A") tokens), None).
Proof.
  intros Hlist Htok Hne.
  destruct (iptables_listing _ _ _ _ Hlist) as (out & s' & E & L).
  unfold Chain_rules, for_splitlines, Chain_iptables. rewrite E, L.
  cbn [fst]. apply rules_of_tokens; assumption.
Qed.

(** X7.  A line without any token, such as an empty line, ends the
    [rules] generator with [IndexError]: the rules of the lines before it
    have been yielded, those of the lines after it are not. *)
Theorem Chain_rules_blank_line self s before blank later tokens :
  listing_is (chain_table self) s ["-S"; chain_name self]
    (before ++ blank :: later) ->
  tokenized before tokens ->
  Forall (fun t => t <> []) tokens ->
  Rule_new [Str blank] = Ret [] ->
  fst (Chain_rules self s)
  = (map (fun t => Py.slice_from t 2) (filter (directive_is "-A") tokens),
     Some IndexError).
Proof.
  intros Hlist Htok Hne Hblank.
  destruct (iptables_listing _ _ _ _ Hlist) as (out & s' & E & L).
  unfold Chain_rules, for_splitlines, Chain_iptables. rewrite E, L.
  cbn [fst].
  rewrite (for_lines_app _ _ _ _ (rules_of_tokens _ _ Htok Hne)).
  cbn [for_lines]. rewrite Hblank. cbn. rewrite app_nil_r. reflexivity.
Qed.

(** X8.  On a listing whose lines all hold at least one token, and two
    when the first is [-P] or [-N], [list_chains] yields, in the order of
    the lines, the second token of each line that begins with [-P] or
    [-N]; the generator then ends normally. *)
Theorem Table_list_chains_yields self s lines tokens :
  listing_is self s ["-S"] lines ->
  tokenized lines tokens ->
  Forall (fun t => t <> [] /\
            (directive_is "-P" t || directive_is "-N" t = true ->
             2 <= length t)) tokens ->
  fst (Table_list_chains self s)
  = (map (fun t => nth 1 t "")
       (filter (fun t => directive_is "-P" t || directive_is "-N" t) tokens),
     None).
Proof.
  intros Hlist Htok Hfmt.
  destruct (iptables_listing _ _ _ _ Hlist) as (out & s' & E & L).
  unfold Table_list_chains, for_splitlines. rewrite E, L. cbn [fst].
  clear E L Hlist. induction Htok as [|l t lines tokens Hl Htok IH].
  - reflexivity.
  - inversion Hfmt as [|? ? [Ht Hlen] Hfmt']; subst.
    destruct t as [|d ops]; [contradiction|].
    cbn [for_lines]. rewrite Hl. cbn [obind Py.index nth_error].
    cbn [filter directive_is] in *. rewrite (IH Hfmt').
    destruct (String.eqb d "-P" || String.eqb d "-N").
    + destruct ops as [|c ops]; [simpl in Hlen; specialize (Hlen eq_refl); lia|].
      reflexivity.
    + reflexivity.
Qed.

Lemma policy_scan_first before line later tokens operands :
  tokenized before tokens ->
  Forall (fun t => t <> [] /\ directive_is "-P" t = false) tokens ->
  Rule_new [Str line] = Ret ("-P" :: operands) ->
  policy_scan (before ++ line :: later) = Py.index ("-P" :: operands) 2.
Proof.
  intros Htok; induction Htok as [|l t lines tokens Hl Htok IH]; intros Hfmt Hline.
  - simpl. rewrite Hline. reflexivity.
  - inversion Hfmt as [|? ? [Ht Hd] Hfmt']; subst.
    destruct t as [|d ops]; [contradiction|].
    simpl in Hd. simpl. rewrite Hl. cbn [obind Py.index nth_error]. rewrite Hd.
    apply IH; assumption.
Qed.

(** X9.  [Chain.policy] returns the third token of the first line that
    begins with [-P], whatever chain that line names, and raises
    [IndexError] when that line has fewer than three tokens. *)
Theorem Chain_policy_first_marker self s before line later tokens operands :
  listing_is (chain_table self) s ["-S"; chain_name self]
    (before ++ line :: later) ->
  tokenized before tokens ->
  Forall (fun t => t <> [] /\ directive_is "-P" t = false) tokens ->
  Rule_new [Str line] = Ret ("-P" :: operands) ->
  fst (Chain_policy self s) = Py.index operands 1.
Proof.
  intros Hlist Htok Hfmt Hline.
  destruct (iptables_listing _ _ _ _ Hlist) as (out & s' & E & L).
  unfold Chain_policy, Chain_iptables, bind, lift. rewrite E, L. cbn [fst].
  rewrite (policy_scan_first _ _ _ _ _ Htok Hfmt Hline). reflexivity.
Qed.

Lemma policy_scan_none lines tokens :
  tokenized lines tokens ->
  Forall (fun t => t <> [] /\ directive_is "-P" t = false) tokens ->
  policy_scan lines = Raise (ValueError "chain does not have default policy").
Proof.
  intros Htok; induction Htok as [|l t lines tokens Hl Htok IH]; intros Hfmt.
  - reflexivity.
  - inversion Hfmt as [|? ? [Ht Hd] Hfmt']; subst.
    destruct t as [|d ops]; [contradiction|].
    simpl in Hd. simpl. rewrite Hl. cbn [obind Py.index nth_error]. rewrite Hd.
    apply IH; assumption.
Qed.

(** C9.  Reading [Chain.policy] lists the chain.  On a listing whose
    lines all hold at least one token it returns the policy value, the
    third token, of the first line that begins with [-P], whatever chain
    that line names: the second token is never compared with the name of
    this chain.  When no line begins with [-P] it raises a [ValueError],
    which is not a [CommandError]. *)
Theorem Chain_policy_spec self s lines tokens :
  listing_is (chain_table self) s ["-S"; chain_name self] lines ->
  tokenized lines tokens ->
  Forall (fun t => t <> []) tokens ->
  (forall before chain value more later,
      tokens = before ++ ("-P" :: chain :: value :: more) :: later ->
      Forall (fun t => directive_is "-P" t = false) before ->
      fst (Chain_policy self s) = Ret value)
  /\ (Forall (fun t => directive_is "-P" t = false) tokens ->
      fst (Chain_policy self s)
        = Raise (ValueError "chain does not have default policy")
      /\ is_CommandError (ValueError "chain does not have default policy") = false).
Proof.
  intros Hlist Htok Hne.
  destruct (iptables_listing _ _ _ _ Hlist) as (out & s' & E & L).
  assert (Hrun : fst (Chain_policy self s) = policy_scan lines).
  { unfold Chain_policy, Chain_iptables, bind, lift. rewrite E, L. reflexivity. }
  rewrite Hrun. split.
  - intros before chain value more later -> Hnone.
    unfold tokenized in Htok.
    apply Forall2_app_inv_r in Htok.
    destruct Htok as (lb & lrest & Hb & Hrest & ->).
    inversion Hrest as [|line t later_l later_t Hline Hlater]; subst.
    apply Forall_app in Hne; destruct Hne as [Hneb _].
    rewrite (policy_scan_first lb line later_l before (chain :: value :: more)).
    + reflexivity.
    + exact Hb.
    + clear - Hneb Hnone. induction before as [|t before IH]; constructor.
      * inversion Hneb; inversion Hnone; subst; auto.
      * inversion Hneb; inversion Hnone; subst; apply IH; assumption.
    + exact Hline.
  - intros Hnone; split; [|reflexivity].
    apply (policy_scan_none lines tokens Htok).
    clear - Hne Hnone. induction tokens as [|t tokens IH]; constructor.
    + inversion Hne; inversion Hnone; subst; auto.
    + inversion Hne; inversion Hnone; subst; apply IH; assumption.
Qed.

(** X10.  When the listing of a chain exits with a nonzero status and
    something on standard error, the readers hand its [CommandError] on:
    [rules] yields nothing and ends with it, and [policy] raises it
    rather than the [ValueError] of a missing policy. *)
Theorem listing_failure_propagates self s p :
  completes (iptables_args (chain_table self) ++ ["-S"; chain_name self]) s = p ->
  p_returncode p <> 0%Z ->
  p_err p <> "" ->
  fst (Chain_rules self s)
  = ([], Some (CommandError
                 (iptables_args (chain_table self) ++ ["-S"; chain_name self])
                 (p_returncode p) (p_out p) (p_err p)))
  /\ fst (Chain_policy self s)
     = Raise (CommandError
                (iptables_args (chain_table self) ++ ["-S"; chain_name self])
                (p_returncode p) (p_out p) (p_err p)).
Proof.
  intros <- Hrc Herr.
  apply Z.eqb_neq in Hrc. apply String.eqb_neq in Herr.
  unfold Chain_rules, Chain_policy, for_splitlines, Chain_iptables, bind.
  rewrite iptables_split. unfold exit_outcome. fold (completes
    (iptables_args (chain_table self) ++ ["-S"; chain_name self]) s).
  rewrite Hrc, Herr. split; reflexivity.
Qed.

(** ** Iterating over the chains of a table *)

Lemma Table_get_chain_returns self chain s c s' :
  Table_get_chain self chain s = (Ret c, s') ->
  c = {| chain_name := chain; chain_table := self |}.
Proof.
  unfold Table_get_chain, bind.
  destruct (Table_chain_exists self chain s) as [[found|e] s1]; [|discriminate].
  destruct (negb found); unfold raise, ret; [discriminate|].
  intros E; injection E as <- _; reflexivity.
Qed.

Lemma for_each_get_chain self ks last s :
  (exists n,
      fst (fst (for_each (Table_get_chain self) ks last s))
      = map (fun k => {| chain_name := k; chain_table := self |}) (firstn n ks))
  /\ (snd (fst (for_each (Table_get_chain self) ks last s)) = None ->
      last = None
      /\ fst (fst (for_each (Table_get_chain self) ks last s))
         = map (fun k => {| chain_name := k; chain_table := self |}) ks
      /\ spawned (snd (for_each (Table_get_chain self) ks last s))
         = spawned s ++ map (fun k => iptables_args self ++ ["-S"; k]) ks).
Proof.
  revert s; induction ks as [|k ks IH]; intros s; simpl.
  - split; [exists 0; reflexivity|]. intros ->.
    rewrite app_nil_r; repeat split.
  - pose proof (grows_by_Table_get_chain self k s) as Hsp.
    destruct (Table_get_chain self k s) as [[c|e] s1] eqn:E; simpl in *.
    + apply Table_get_chain_returns in E; subst c.
      destruct (IH s1) as [[n Hn] Hend].
      destruct (for_each (Table_get_chain self) ks last s1) as [[cs e'] s2];
        simpl in *.
      split.
      * exists (S n); simpl; rewrite Hn; reflexivity.
      * intros He. destruct (Hend He) as (Hlast & Hcs & Hsp2).
        repeat split; [exact Hlast | rewrite Hcs; reflexivity|].
        rewrite Hsp2, Hsp, <- app_assoc. reflexivity.
    + split; [exists 0; reflexivity | discriminate].
Qed.

(** X11.  Iterating over the chain finder yields, in order, the chains
    of an initial part of the names that [keys] yields, each bound to the
    finder's table.  When the iteration ends normally, so did [keys], a
    chain was yielded for every name, and the commands run are the
    listing followed by one probe for each name, in order. *)
Theorem ChainFinder_iter_yields self s :
  (exists n,
      fst (fst (ChainFinder_iter self s))
      = map (fun k => {| chain_name := k; chain_table := finder_table self |})
          (firstn n (fst (fst (ChainFinder_keys self s)))))
  /\ (snd (fst (ChainFinder_iter self s)) = None ->
      snd (fst (ChainFinder_keys self s)) = None
      /\ fst (fst (ChainFinder_iter self s))
         = map (fun k => {| chain_name := k; chain_table := finder_table self |})
             (fst (fst (ChainFinder_keys self s)))
      /\ spawned (snd (ChainFinder_iter self s))
         = spawned s
           ++ (iptables_args (finder_table self) ++ ["-S"])
              :: map (fun k => iptables_args (finder_table self) ++ ["-S"; k])
                   (fst (fst (ChainFinder_keys self s)))).
Proof.
  unfold ChainFinder_iter, gen_map.
  assert (Hk : spawned (snd (ChainFinder_keys self s))
               = spawned s ++ [iptables_args (finder_table self) ++ ["-S"]]).
  { unfold ChainFinder_keys, Table_list_chains, iptables.
    apply (grows_by_for_splitlines
             [iptables_args (finder_table self) ++ ["-S"]]).
    apply grows_by_cmd. }
  destruct (ChainFinder_keys self s) as [[ks last] s1]; simpl in *.
  destruct (for_each_get_chain (finder_table self) ks last s1) as [Hn Hend].
  split; [exact Hn|].
  intros He. destruct (Hend He) as (Hlast & Hcs & Hsp).
  repeat split; [exact Hlast | exact Hcs |].
  rewrite Hsp, Hk, <- app_assoc. reflexivity.
Qed.

(** ** The methods that only write *)

Lemma write_fst self args s :
  fst ((iptables self args ;;; ret tt) s) =
    if (p_returncode (completes (iptables_args self ++ args) s) =? 0)%Z
    then Ret tt
    else if String.eqb (p_err (completes (iptables_args self ++ args) s)) ""
    then Raise IndexError
    else Raise (CommandError (iptables_args self ++ args)
                  (p_returncode (completes (iptables_args self ++ args) s))
                  (p_out (completes (iptables_args self ++ args) s))
                  (p_err (completes (iptables_args self ++ args) s))).
Proof.
  unfold bind, completes. rewrite iptables_split. unfold exit_outcome.
  set (p := fst (spawn _ (world s))).
  destruct (p_returncode p =? 0)%Z; [reflexivity|].
  destruct (String.eqb (p_err p) ""); reflexivity.
Qed.

(** X13.  The methods that only write (setting the policy, [append],
    [insert], [replace], [zero], [delete] with an argument, [flush],
    [delete_chain], [flush_chain], [flush_all], [zero_all]) return [None]
    exactly when their command exits with status zero; they hand on the
    [CommandError] of a failed command with something on standard error,
    and raise [IndexError] for a failed command with an empty standard
    error. *)
Theorem write_outcome self c m args s p :
  write_call self c = Some m ->
  single_command c = Some args ->
  completes (iptables_args self ++ args) s = p ->
  fst (m s) =
    if (p_returncode p =? 0)%Z then Ret tt
    else if String.eqb (p_err p) "" then Raise IndexError
    else Raise (CommandError (iptables_args self ++ args)
                  (p_returncode p) (p_out p) (p_err p)).
Proof.
  intros Hm Hargs <-.
  destruct c as [n|n rule|n|n value|n rule|n rule pos|n pos rule|n
                |n [rule|] [pos|]|n|n| |n|n|n|n| | |n rule|k| |];
    simpl in Hm, Hargs; try discriminate;
    injection Hm as <-; injection Hargs as <-;
    apply write_fst.
Qed.

(** ** [Chain.delete] *)

Lemma write_snd self args s :
  snd ((iptables self args ;;; ret tt) s) = snd (cmd (iptables_args self ++ args) s).
Proof.
  unfold bind, iptables, ret.
  destruct (cmd (iptables_args self ++ args) s) as [[out|e] s']; reflexivity.
Qed.

(** C4.  [Chain.delete] with neither a rule nor a position raises a
    [ValueError], which is not a [CommandError], and leaves the state
    as it was: no command is run.  With a rule, or with a position
    only, it runs one command, the delete subcommand on the chain: that
    argument vector is the one spawned, the outside world is the one
    that this command leaves, and the call returns [None] when the
    command exits with status zero and raises what [cmd] raises
    otherwise. *)
Theorem Chain_delete_spec self s :
  (Chain_delete self None None s
     = (Raise (ValueError "requires either rule or position"), s)
   /\ is_CommandError (ValueError "requires either rule or position") = false)
  /\ (forall rule pos,
        spawned (snd (Chain_delete self (Some rule) pos s))
          = spawned s ++ [iptables_args (chain_table self)
                            ++ "-D" :: chain_name self :: rule]
        /\ world (snd (Chain_delete self (Some rule) pos s))
           = snd (spawn (iptables_args (chain_table self)
                           ++ "-D" :: chain_name self :: rule) (world s))
        /\ fst (Chain_delete self (Some rule) pos s)
           = if (p_returncode
                   (completes (iptables_args (chain_table self)
                                 ++ "-D" :: chain_name self :: rule) s) =? 0)%Z
             then Ret tt
             else if String.eqb
                       (p_err (completes (iptables_args (chain_table self)
                                            ++ "-D" :: chain_name self :: rule) s))
                       ""
             then Raise IndexError
             else Raise (CommandError
                    (iptables_args (chain_table self)
                       ++ "-D" :: chain_name self :: rule)
                    (p_returncode
                       (completes (iptables_args (chain_table self)
                                     ++ "-D" :: chain_name self :: rule) s))
                    (p_out
                       (completes (iptables_args (chain_table self)
                                     ++ "-D" :: chain_name self :: rule) s))
                    (p_err
                       (completes (iptables_args (chain_table self)
                                     ++ "-D" :: chain_name self :: rule) s))))
  /\ (forall pos,
        spawned (snd (Chain_delete self None (Some pos) s))
          = spawned s ++ [iptables_args (chain_table self)
                            ++ ["-D"; chain_name self; Py.str_of_int pos]]
        /\ world (snd (Chain_delete self None (Some pos) s))
           = snd (spawn (iptables_args (chain_table self)
                           ++ ["-D"; chain_name self; Py.str_of_int pos])
                    (world s))
        /\ fst (Chain_delete self None (Some pos) s)
           = if (p_returncode
                   (completes (iptables_args (chain_table self)
                                 ++ ["-D"; chain_name self; Py.str_of_int pos])
                      s) =? 0)%Z
             then Ret tt
             else if String.eqb
                       (p_err (completes
                                 (iptables_args (chain_table self)
                                    ++ ["-D"; chain_name self; Py.str_of_int pos])
                                 s))
                       ""
             then Raise IndexError
             else Raise (CommandError
                    (iptables_args (chain_table self)
                       ++ ["-D"; chain_name self; Py.str_of_int pos])
                    (p_returncode
                       (completes (iptables_args (chain_table self)
                                     ++ ["-D"; chain_name self; Py.str_of_int pos])
                          s))
                    (p_out
                       (completes (iptables_args (chain_table self)
                                     ++ ["-D"; chain_name self; Py.str_of_int pos])
                          s))
                    (p_err
                       (completes (iptables_args (chain_table self)
                                     ++ ["-D"; chain_name self; Py.str_of_int pos])
                          s)))).
Proof.
  split; [split; reflexivity|].
  split; intros; unfold Chain_delete, Chain_iptables.
  - rewrite write_snd, cmd_spawned, cmd_world.
    repeat split. apply write_fst.
  - rewrite write_snd, cmd_spawned, cmd_world.
    repeat split. apply write_fst.
Qed.

End Invoker.

Arguments St {World} _ _ _.
Arguments world {World} _.
Arguments spawned {World} _.
Arguments logged {World} _.

(** ** Building a rule from a string *)

Lemma append_empty (s : string) : (s ++ "")%string = s.
Proof. induction s as [|c s IH]; simpl; [reflexivity | rewrite IH; reflexivity]. Qed.

Lemma append_add (token : string) (c : ascii) (w : string) :
  (Shlex.add token c ++ w)%string = (token ++ String c w)%string.
Proof.
  unfold Shlex.add.
  induction token as [|d token IH]; simpl; [reflexivity | rewrite IH; reflexivity].
Qed.

Lemma plain_char_inv c :
  plain_char c = true ->
  Py.char_in c Shlex.whitespace = false
  /\ Py.char_in c Shlex.quotes = false
  /\ Py.char_in c Shlex.escape = false.
Proof.
  unfold plain_char; intros H.
  apply andb_prop in H; destruct H as [H H3].
  apply andb_prop in H; destruct H as [H1 H2].
  repeat split; apply negb_true_iff; assumption.
Qed.

(** The first character of a word. *)
Lemma lex_word_start c rest escapedstate token quoted :
  plain_char c = true ->
  Shlex.lex (String c rest) Shlex.InSpace escapedstate token quoted
  = Shlex.lex rest Shlex.InWord escapedstate (String c "") quoted.
Proof.
  intros H; destruct (plain_char_inv c H) as (Hw & Hq & He).
  cbn [Shlex.lex]. rewrite Hw, He, Hq.
  destruct (Shlex.in_wordchars c); reflexivity.
Qed.

(** The other characters of a word. *)
Lemma lex_word_rest w : forall rest escapedstate token quoted,
  forallb plain_char (list_ascii_of_string w) = true ->
  Shlex.lex (w ++ rest) Shlex.InWord escapedstate token quoted
  = Shlex.lex rest Shlex.InWord escapedstate (token ++ w) quoted.
Proof.
  induction w as [|c w IH]; intros rest escapedstate token quoted H.
  - rewrite append_empty; reflexivity.
  - simpl in H. apply andb_prop in H; destruct H as [Hc Hw].
    destruct (plain_char_inv c Hc) as (Hws & Hq & He).
    change ((String c w ++ rest)%string) with (String c (w ++ rest)).
    cbn [Shlex.lex]. rewrite Hws, Hq, He.
    rewrite IH by assumption. rewrite append_add. reflexivity.
Qed.

Lemma plain_token_inv t :
  plain_token t = true ->
  exists c w, t = String c w /\ plain_char c = true
              /\ forallb plain_char (list_ascii_of_string w) = true.
Proof.
  unfold plain_token. destruct t as [|c w]; simpl; [discriminate|].
  intros H; apply andb_prop in H. exists c, w; tauto.
Qed.

Lemma lex_join t : forall T,
  plain_token t = true ->
  forallb plain_token T = true ->
  Shlex.lex (Py.join " " (t :: T)) Shlex.InSpace Shlex.InSpace "" false
  = Ret (t :: T).
Proof.
  intros T; revert t; induction T as [|t' T IH]; intros t Ht HT;
    destruct (plain_token_inv t Ht) as (c & w & -> & Hc & Hw).
  - unfold Py.join; simpl String.concat.
    rewrite lex_word_start by assumption.
    rewrite <- (append_empty w) at 1.
    rewrite lex_word_rest by assumption. reflexivity.
  - simpl in HT. apply andb_prop in HT; destruct HT as [Ht' HT].
    specialize (IH t' Ht' HT).
    unfold Py.join in *.
    change (String.concat " " (String c w :: t' :: T))
      with (String c (w ++ String " " (String.concat " " (t' :: T)))).
    rewrite lex_word_start by assumption.
    rewrite lex_word_rest by assumption.
    cbn [Shlex.lex]. change (Py.char_in " " Shlex.whitespace) with true.
    cbn iota. change (("" ++ String c w)%string) with (String c w).
    simpl negb. simpl orb. cbn iota.
    rewrite IH. reflexivity.
Qed.

Lemma split_join T :
  forallb plain_token T = true -> Shlex.split (Py.join " " T) = Ret T.
Proof.
  destruct T as [|t T]; [reflexivity|].
  simpl; intros H; apply andb_prop in H; destruct H.
  apply lex_join; assumption.
Qed.

(** C6.  For every sequence of tokens that are not empty and hold no
    separator of the lexer (space, tab, carriage return, line feed), no
    quote and no backslash, the rule built from the sequence and the rule
    built from the string that renders it are the same rule. *)
Theorem Rule_from_string_agrees T :
  forallb plain_token T = true ->
  Rule_new [Seq T] = Ret T
  /\ Rule_new [Str (Rule_str T)] = Rule_new [Seq T].
Proof.
  intros H; split; [reflexivity|].
  unfold Rule_new, Rule_str. apply split_join; exact H.
Qed.

(** ** Parsing, rendering and parsing again *)

Lemma forallb_plain_add token c :
  forallb plain_char (list_ascii_of_string token) = true ->
  plain_char c = true ->
  forallb plain_char (list_ascii_of_string (Shlex.add token c)) = true.
Proof.
  unfold Shlex.add. induction token as [|d token IH]; simpl.
  - intros _ ->; reflexivity.
  - intros H Hc. apply andb_prop in H; destruct H as [Hd Ht].
    rewrite Hd, (IH Ht Hc). reflexivity.
Qed.

Lemma result_plain token :
  forallb plain_char (list_ascii_of_string token) = true ->
  match Shlex.result token false with
  | Some t => t = token /\ plain_token token = true
  | None => token = ""
  end.
Proof.
  intros H. unfold Shlex.result, plain_token. simpl negb. simpl andb.
  destruct (String.eqb_spec token ""); [assumption|]. split; [reflexivity|].
  simpl. exact H.
Qed.

Lemma nonempty_result token :
  negb (String.eqb token "") || false = true ->
  Shlex.result token false = Some token.
Proof.
  unfold Shlex.result. simpl. destruct (String.eqb token ""); [discriminate|].
  reflexivity.
Qed.

Lemma quote_free_cons c input :
  quote_free (String c input) = true ->
  Py.char_in c Shlex.quotes = false
  /\ Py.char_in c Shlex.escape = false
  /\ quote_free input = true.
Proof.
  change (quote_free (String c input))
    with (negb (Py.char_in c Shlex.quotes) && negb (Py.char_in c Shlex.escape)
          && quote_free input).
  intros H. apply andb_prop in H; destruct H as [Hc Hq].
  apply andb_prop in Hc; destruct Hc as [Hcq Hce].
  apply negb_true_iff in Hcq, Hce. auto.
Qed.

Lemma lex_quote_free input : forall st escapedstate token,
  quote_free input = true ->
  forallb plain_char (list_ascii_of_string token) = true ->
  st = Shlex.InSpace \/ st = Shlex.InWord ->
  exists ts,
    Shlex.lex input st escapedstate token false = Ret ts
    /\ forallb plain_token ts = true.
Proof.
  induction input as [|c input IH]; intros st escapedstate token Hq Htok Hst.
  - pose proof (result_plain token Htok) as Hr.
    assert (Heof : exists ts,
      match Shlex.result token false with
      | Some t => Ret [t]
      | None => Ret []
      end = Ret ts /\ forallb plain_token ts = true).
    { destruct (Shlex.result token false) as [t|].
      - destruct Hr as [-> Hp]. exists [token]; simpl; rewrite Hp; auto.
      - exists []; auto. }
    destruct Hst as [-> | ->]; exact Heof.
  - destruct (quote_free_cons c input Hq) as (Hcq & Hce & Hq').
    assert (Hemit :
      negb (String.eqb token "") || false = true ->
      exists ts,
        Shlex.emit token false (Shlex.lex input Shlex.InSpace Shlex.InSpace "" false)
        = Ret ts /\ forallb plain_token ts = true).
    { intros Hne. unfold Shlex.emit. rewrite (nonempty_result _ Hne).
      destruct (IH Shlex.InSpace Shlex.InSpace "" Hq' eq_refl (or_introl eq_refl))
        as (ts & -> & Hts).
      exists (token :: ts); split; [reflexivity|]. simpl. rewrite Hts.
      pose proof (result_plain token Htok) as Hr.
      rewrite (nonempty_result _ Hne) in Hr. destruct Hr as [_ ->]. reflexivity. }
    destruct (Py.char_in c Shlex.whitespace) eqn:Hws.
    + destruct Hst as [-> | ->]; cbn [Shlex.lex]; rewrite Hws;
        destruct (negb (String.eqb token "") || false) eqn:Hne;
        try (apply (Hemit eq_refl));
        apply IH; auto.
    + assert (Hplain : plain_char c = true)
        by (unfold plain_char; rewrite Hws, Hcq, Hce; reflexivity).
      destruct Hst as [-> | ->]; cbn [Shlex.lex]; rewrite Hws.
      * rewrite Hce, Hcq.
        destruct (Shlex.in_wordchars c); apply IH; auto; simpl;
          rewrite Hplain; reflexivity.
      * rewrite Hcq, Hce. apply IH; auto. apply forallb_plain_add; assumption.
Qed.

(** X12.  A string without a quote and without a backslash always
    builds a rule; every token of that rule is not empty and holds no
    separator; and the string that renders the rule builds the same rule
    again. *)
Theorem Rule_render_stable s :
  quote_free s = true ->
  exists r,
    Rule_new [Str s] = Ret r
    /\ forallb plain_token r = true
    /\ Rule_new [Str (Rule_str r)] = Ret r.
Proof.
  intros H.
  destruct (lex_quote_free s Shlex.InSpace Shlex.InSpace "" H eq_refl
              (or_introl eq_refl)) as (r & Hr & Hp).
  exists r. split; [exact Hr|]. split; [exact Hp|].
  unfold Rule_new, Rule_str. apply split_join; exact Hp.
Qed.

(** C6 without the restriction: a token may hold no whitespace and still hold a
    quote or a backslash, or be empty.  The rule built from the four
    tokens below keeps the quotes, and the rule built from the string
    that renders them loses them; a backslash is lost in the same way and
    an empty token disappears. *)
Lemma Rule_from_string_drops_quotes :
  (["-m"; "comment"; "--comment"; "'ssh'"] <> []
   /\ forallb whitespace_free ["-m"; "comment"; "--comment"; "'ssh'"] = true
   /\ Rule_new [Seq ["-m"; "comment"; "--comment"; "'ssh'"]]
      = Ret ["-m"; "comment"; "--comment"; "'ssh'"]
   /\ Rule_new [Str (Rule_str ["-m"; "comment"; "--comment"; "'ssh'"])]
      = Ret ["-m"; "comment"; "--comment"; "ssh"]
   /\ Rule_new [Str (Rule_str ["-m"; "comment"; "--comment"; "'ssh'"])]
      <> Rule_new [Seq ["-m"; "comment"; "--comment"; "'ssh'"]])
  /\ (forallb whitespace_free ["a\b"] = true
      /\ Rule_new [Str (Rule_str ["a\b"])] = Ret ["ab"])
  /\ (forallb whitespace_free [""] = true
      /\ Rule_new [Str (Rule_str [""])] = Ret []).
Proof.
  split; [|split; split; reflexivity].
  split; [discriminate|]. split; [reflexivity|]. split; [reflexivity|].
  split; [reflexivity|]. vm_compute. discriminate.
Qed.

Lemma Rule_from_string_agrees_witness :
  forallb plain_token ["-s"; "192.168.1.0/24"; "-j"; "ACCEPT"] = true
  /\ Rule_new [Seq ["-s"; "192.168.1.0/24"; "-j"; "ACCEPT"]]
     = Ret ["-s"; "192.168.1.0/24"; "-j"; "ACCEPT"]
  /\ Rule_new [Str (Rule_str ["-s"; "192.168.1.0/24"; "-j"; "ACCEPT"])]
     = Rule_new [Seq ["-s"; "192.168.1.0/24"; "-j"; "ACCEPT"]].
Proof.
  split; [reflexivity|].
  apply (Rule_from_string_agrees ["-s"; "192.168.1.0/24"; "-j"; "ACCEPT"]).
  reflexivity.
Defined.

(** C7 with a prefix of three tokens: in a namespace the tool's name is the fifth
    token, after [ip netns exec] and the name of the namespace, so no
    prefix of three tokens is followed by a tool name and [-w]. *)
Lemma namespace_prefix_has_four_tokens :
  spawned (after unit (always (Completed 0 "" ""))
             (Table_init "filter" (Some "ns1")) Table_flush_all_call
             (St tt [] []))
  = [["ip"; "netns"; "exec"; "ns1"; "iptables"; "-w"; "-t"; "filter"; "-F"]]
  /\ ~ three_token_prefix_shape "filter" (Some "ns1")
         ["ip"; "netns"; "exec"; "ns1"; "iptables"; "-w"; "-t"; "filter"; "-F"].
Proof.
  split; [reflexivity|].
  intros (prefix & tool & subcommand & rest & E & L).
  destruct prefix as [|a [|b [|c [|d prefix]]]]; simpl in L, E; congruence.
Qed.

Lemma cmd_IndexError_on_empty_stderr_witness :
  always (Completed 2 "" "") ["iptables"; "-w"; "-t"; "filter"; "-S"; "INPUT"] tt
    = (Completed 2 "" "", tt)
  /\ (2 <> 0)%Z
  /\ cmd unit (always (Completed 2 "" ""))
       ["iptables"; "-w"; "-t"; "filter"; "-S"; "INPUT"] (St tt [] [])
     = (Raise IndexError,
        St tt [["iptables"; "-w"; "-t"; "filter"; "-S"; "INPUT"]]
           [LogRecord "running command: %s"
              [LogStr "iptables -w -t filter -S INPUT"]]).
Proof.
  split; [reflexivity|]. split; [lia|].
  apply (cmd_IndexError_on_empty_stderr unit (always (Completed 2 "" ""))
           ["iptables"; "-w"; "-t"; "filter"; "-S"; "INPUT"] (St tt [] [])
           (Completed 2 "" "") tt); [reflexivity | simpl; lia | reflexivity].
Defined.

Lemma listing_of_three_lines_witness :
  (listing_is unit
     (always (Completed 0
        (lines_text ["-P INPUT ACCEPT"; "-N LOGGING"; "-A INPUT -j LOGGING"]) ""))
     Defaults.filter (St tt [] []) ["-S"]
     ["-P INPUT ACCEPT"; "-N LOGGING"; "-A INPUT -j LOGGING"]
   /\ listing_is unit
     (always (Completed 0
        (lines_text ["-P INPUT ACCEPT"; "-N LOGGING"; "-A INPUT -j LOGGING"]) ""))
     Defaults.filter (St tt [] []) ["-S"; "INPUT"]
     ["-P INPUT ACCEPT"; "-N LOGGING"; "-A INPUT -j LOGGING"])
  /\ (fst (Table_list_chains unit
         (always (Completed 0
            (lines_text ["-P INPUT ACCEPT"; "-N LOGGING"; "-A INPUT -j LOGGING"]) ""))
         Defaults.filter (St tt [] []))
       = (["INPUT"; "LOGGING"], None)
      /\ fst (Chain_rules unit
         (always (Completed 0
            (lines_text ["-P INPUT ACCEPT"; "-N LOGGING"; "-A INPUT -j LOGGING"]) ""))
         {| chain_name := "INPUT"; chain_table := Defaults.filter |} (St tt [] []))
       = ([["-j"; "LOGGING"]], None)
      /\ fst (Chain_policy unit
         (always (Completed 0
            (lines_text ["-P INPUT ACCEPT"; "-N LOGGING"; "-A INPUT -j LOGGING"]) ""))
         {| chain_name := "INPUT"; chain_table := Defaults.filter |} (St tt [] []))
       = Ret "ACCEPT").
Proof.
  split; [split; split; reflexivity|].
  apply (listing_of_three_lines unit
           (always (Completed 0
              (lines_text ["-P INPUT ACCEPT"; "-N LOGGING"; "-A INPUT -j LOGGING"]) ""))
           Defaults.filter (St tt [] [])); split; reflexivity.
Defined.

(** C9 with a line chosen by its chain: the listing below has no
    default-policy line of the chain [INPUT], and reading the policy of
    [INPUT] on it returns the policy of [FORWARD] instead of raising. *)
Lemma Chain_policy_ignores_chain_name :
  listing_is unit (always (Completed 0 (lines_text ["-P FORWARD DROP"]) ""))
    Defaults.filter (St tt [] []) ["-S"; "INPUT"] ["-P FORWARD DROP"]
  /\ (forall line value,
        In line ["-P FORWARD DROP"] -> ~ policy_line "INPUT" value line)
  /\ fst (Chain_policy unit
            (always (Completed 0 (lines_text ["-P FORWARD DROP"]) ""))
            {| chain_name := "INPUT"; chain_table := Defaults.filter |}
            (St tt [] []))
     = Ret "DROP"
  /\ (forall msg,
        fst (Chain_policy unit
               (always (Completed 0 (lines_text ["-P FORWARD DROP"]) ""))
               {| chain_name := "INPUT"; chain_table := Defaults.filter |}
               (St tt [] []))
        <> Raise (ValueError msg)).
Proof.
  split; [split; reflexivity|]. split.
  - intros line value [<- | []] [more H]. vm_compute in H. congruence.
  - split; [reflexivity|]. intros msg H. vm_compute in H. discriminate H.
Qed.

Lemma Chain_policy_spec_witness :
  (listing_is unit
     (always (Completed 0 (lines_text ["-N LOGGING"; "-P INPUT DROP";
                                       "-A INPUT -j LOGGING"]) ""))
     Defaults.filter (St tt [] []) ["-S"; "INPUT"]
     ["-N LOGGING"; "-P INPUT DROP"; "-A INPUT -j LOGGING"]
   /\ tokenized ["-N LOGGING"; "-P INPUT DROP"; "-A INPUT -j LOGGING"]
        [["-N"; "LOGGING"]; ["-P"; "INPUT"; "DROP"];
         ["-A"; "INPUT"; "-j"; "LOGGING"]]
   /\ Forall (fun t : list string => t <> [])
        [["-N"; "LOGGING"]; ["-P"; "INPUT"; "DROP"];
         ["-A"; "INPUT"; "-j"; "LOGGING"]]
   /\ Forall (fun t => directive_is "-P" t = false) [["-N"; "LOGGING"]])
  /\ fst (Chain_policy unit
       (always (Completed 0 (lines_text ["-N LOGGING"; "-P INPUT DROP";
                                         "-A INPUT -j LOGGING"]) ""))
       {| chain_name := "INPUT"; chain_table := Defaults.filter |} (St tt [] []))
     = Ret "DROP".
Proof.
  assert (Hlist : listing_is unit
     (always (Completed 0 (lines_text ["-N LOGGING"; "-P INPUT DROP";
                                       "-A INPUT -j LOGGING"]) ""))
     Defaults.filter (St tt [] []) ["-S"; "INPUT"]
     ["-N LOGGING"; "-P INPUT DROP"; "-A INPUT -j LOGGING"])
    by (split; reflexivity).
  assert (Htok : tokenized ["-N LOGGING"; "-P INPUT DROP"; "-A INPUT -j LOGGING"]
            [["-N"; "LOGGING"]; ["-P"; "INPUT"; "DROP"];
             ["-A"; "INPUT"; "-j"; "LOGGING"]])
    by (repeat constructor).
  assert (Hne : Forall (fun t : list string => t <> [])
            [["-N"; "LOGGING"]; ["-P"; "INPUT"; "DROP"];
             ["-A"; "INPUT"; "-j"; "LOGGING"]])
    by (repeat constructor; discriminate).
  assert (Hbefore : Forall (fun t => directive_is "-P" t = false)
                      [["-N"; "LOGGING"]])
    by (repeat constructor).
  split; [split; [exact Hlist | split; [exact Htok | split; [exact Hne | exact Hbefore]]]|].
  exact (proj1 (Chain_policy_spec unit
                  (always (Completed 0 (lines_text ["-N LOGGING"; "-P INPUT DROP";
                                                    "-A INPUT -j LOGGING"]) ""))
                  {| chain_name := "INPUT"; chain_table := Defaults.filter |}
                  (St tt [] [])
                  ["-N LOGGING"; "-P INPUT DROP"; "-A INPUT -j LOGGING"]
                  [["-N"; "LOGGING"]; ["-P"; "INPUT"; "DROP"];
                   ["-A"; "INPUT"; "-j"; "LOGGING"]]
                  Hlist Htok Hne)
           [["-N"; "LOGGING"]] "INPUT" "DROP" []
           [["-A"; "INPUT"; "-j"; "LOGGING"]] eq_refl Hbefore).
Defined.

(** ** The calls that end in an error of the interpreter *)

(** [filter.rule_exists('INPUT', Rule('-j ACCEPT'))] *)
Example Table_rule_exists_on_filter :
  Table_rule_exists unit (always (Completed 0 "" "")) Defaults.filter
    "INPUT" ["-j"; "ACCEPT"] (St tt [] [])
  = (Raise AttributeError, St tt [] []).
Proof. reflexivity. Qed.

(** A child that exits with status 1 and writes nothing. *)
Lemma cmd_outcome_witness :
  completes unit (always (Completed 1 "" ""))
    ["iptables"; "-w"; "-t"; "filter"; "-F"] (St tt [] [])
  = Completed 1 "" ""
  /\ fst (cmd unit (always (Completed 1 "" ""))
            ["iptables"; "-w"; "-t"; "filter"; "-F"] (St tt [] []))
     = Raise IndexError.
Proof.
  split; [reflexivity|].
  exact (cmd_outcome unit (always (Completed 1 "" ""))
           ["iptables"; "-w"; "-t"; "filter"; "-F"] (St tt [] [])
           (Completed 1 "" "") eq_refl).
Defined.

(** A check that exits with status 1 and writes nothing. *)
Lemma Chain_rule_exists_outcome_witness :
  completes unit (always (Completed 1 "" ""))
    ["iptables"; "-w"; "-t"; "filter"; "-C"; "INPUT"; "-j"; "ACCEPT"] (St tt [] [])
  = Completed 1 "" ""
  /\ fst (Chain_rule_exists unit (always (Completed 1 "" ""))
            {| chain_name := "INPUT"; chain_table := Defaults.filter |}
            ["-j"; "ACCEPT"] (St tt [] []))
     = Raise IndexError.
Proof.
  split; [reflexivity|].
  exact (Chain_rule_exists_outcome unit (always (Completed 1 "" ""))
           {| chain_name := "INPUT"; chain_table := Defaults.filter |}
           ["-j"; "ACCEPT"] (St tt [] []) (Completed 1 "" "") eq_refl).
Defined.

(** The same check when the tool says why it failed. *)
Example Chain_rule_exists_status_1_message :
  fst (Chain_rule_exists unit (always (Completed 1 "" "iptables: Bad rule."))
         {| chain_name := "INPUT"; chain_table := Defaults.filter |}
         ["-j"; "ACCEPT"] (St tt [] []))
  = Ret false.
Proof. reflexivity. Qed.

(** A probe killed by signal 9, which leaves nothing on standard error. *)
Lemma Table_chain_exists_outcome_witness :
  completes unit (always (Completed (-9) "" ""))
    ["iptables"; "-w"; "-t"; "filter"; "-S"; "INPUT"] (St tt [] [])
  = Completed (-9) "" ""
  /\ fst (Table_chain_exists unit (always (Completed (-9) "" ""))
            Defaults.filter "INPUT" (St tt [] []))
     = Raise IndexError.
Proof.
  split; [reflexivity|].
  exact (Table_chain_exists_outcome unit (always (Completed (-9) "" ""))
           Defaults.filter "INPUT" (St tt [] []) (Completed (-9) "" "") eq_refl).
Defined.

(** ** The further properties at work *)


(** Looking up a chain that the tool does not know. *)
Lemma Table_get_chain_outcome_witness :
  completes (list string) tool ["iptables"; "-w"; "-t"; "filter"; "-S"; "LOGGING"]
    (St [] [] [])
  = Completed 1 "" "iptables: No chain/target/match by that name."
  /\ fst (Table_get_chain (list string) tool Defaults.filter "LOGGING" (St [] [] []))
     = Raise (KeyError "LOGGING").
Proof.
  split; [reflexivity|].
  exact (Table_get_chain_outcome (list string) tool Defaults.filter "LOGGING"
           (St [] [] [])
           (Completed 1 "" "iptables: No chain/target/match by that name.")
           eq_refl).
Defined.

(** Creating a chain that the tool does not know yet. *)
Lemma Table_create_chain_outcome_witness :
  (completes (list string) tool
     ["iptables"; "-w"; "-t"; "filter"; "-N"; "LOGGING"] (St [] [] [])
   = Completed 0 "" ""
   /\ completes (list string) tool
        ["iptables"; "-w"; "-t"; "filter"; "-S"; "LOGGING"]
        (spawned_state (list string) tool
           ["iptables"; "-w"; "-t"; "filter"; "-N"; "LOGGING"] (St [] [] []))
      = Completed 0 (lines_text ["-N LOGGING"]) "")
  /\ fst (Table_create_chain (list string) tool Defaults.filter "LOGGING"
            (St [] [] []))
     = Ret {| chain_name := "LOGGING"; chain_table := Defaults.filter |}
  /\ spawned (snd (Table_create_chain (list string) tool Defaults.filter "LOGGING"
                     (St [] [] [])))
     = [["iptables"; "-w"; "-t"; "filter"; "-N"; "LOGGING"];
        ["iptables"; "-w"; "-t"; "filter"; "-S"; "LOGGING"]].
Proof.
  split; [split; reflexivity|].
  exact (Table_create_chain_outcome (list string) tool Defaults.filter "LOGGING"
           (St [] [] []) (Completed 0 "" "")
           (Completed 0 (lines_text ["-N LOGGING"]) "") eq_refl eq_refl).
Defined.

Lemma Chain_rules_yields_witness :
  (listing_is unit
     (always (Completed 0
        (lines_text ["-P INPUT ACCEPT"; "-A INPUT -j LOGGING"; "-A INPUT -j DROP"])
        ""))
     Defaults.filter (St tt [] []) ["-S"; "INPUT"]
     ["-P INPUT ACCEPT"; "-A INPUT -j LOGGING"; "-A INPUT -j DROP"]
   /\ tokenized ["-P INPUT ACCEPT"; "-A INPUT -j LOGGING"; "-A INPUT -j DROP"]
        [["-P"; "INPUT"; "ACCEPT"]; ["-A"; "INPUT"; "-j"; "LOGGING"];
         ["-A"; "INPUT"; "-j"; "DROP"]]
   /\ Forall (fun t : list string => t <> [])
        [["-P"; "INPUT"; "ACCEPT"]; ["-A"; "INPUT"; "-j"; "LOGGING"];
         ["-A"; "INPUT"; "-j"; "DROP"]])
  /\ fst (Chain_rules unit
       (always (Completed 0
          (lines_text ["-P INPUT ACCEPT"; "-A INPUT -j LOGGING"; "-A INPUT -j DROP"])
          ""))
       {| chain_name := "INPUT"; chain_table := Defaults.filter |} (St tt [] []))
     = ([["-j"; "LOGGING"]; ["-j"; "DROP"]], None).
Proof.
  assert (Htok : tokenized
            ["-P INPUT ACCEPT"; "-A INPUT -j LOGGING"; "-A INPUT -j DROP"]
            [["-P"; "INPUT"; "ACCEPT"]; ["-A"; "INPUT"; "-j"; "LOGGING"];
             ["-A"; "INPUT"; "-j"; "DROP"]])
    by (repeat constructor).
  assert (Hne : Forall (fun t : list string => t <> [])
            [["-P"; "INPUT"; "ACCEPT"]; ["-A"; "INPUT"; "-j"; "LOGGING"];
             ["-A"; "INPUT"; "-j"; "DROP"]])
    by (repeat constructor; discriminate).
  split; [split; [split; reflexivity | split; assumption]|].
  apply (Chain_rules_yields unit
           (always (Completed 0
              (lines_text ["-P INPUT ACCEPT"; "-A INPUT -j LOGGING";
                           "-A INPUT -j DROP"]) ""))
           {| chain_name := "INPUT"; chain_table := Defaults.filter |}
           (St tt [] [])
           ["-P INPUT ACCEPT"; "-A INPUT -j LOGGING"; "-A INPUT -j DROP"]
           [["-P"; "INPUT"; "ACCEPT"]; ["-A"; "INPUT"; "-j"; "LOGGING"];
            ["-A"; "INPUT"; "-j"; "DROP"]]);
    [split; reflexivity | exact Htok | exact Hne].
Defined.

(** An empty line between two rules. *)
Lemma Chain_rules_blank_line_witness :
  (Py.splitlines (lines_text ["-A INPUT -j LOGGING"; ""; "-A INPUT -j DROP"])
   = ["-A INPUT -j LOGGING"] ++ "" :: ["-A INPUT -j DROP"]
   /\ tokenized ["-A INPUT -j LOGGING"] [["-A"; "INPUT"; "-j"; "LOGGING"]]
   /\ Forall (fun t : list string => t <> []) [["-A"; "INPUT"; "-j"; "LOGGING"]]
   /\ Rule_new [Str ""] = Ret [])
  /\ fst (Chain_rules unit
       (always (Completed 0
          (lines_text ["-A INPUT -j LOGGING"; ""; "-A INPUT -j DROP"]) ""))
       {| chain_name := "INPUT"; chain_table := Defaults.filter |} (St tt [] []))
     = ([["-j"; "LOGGING"]], Some IndexError).
Proof.
  assert (Htok : tokenized ["-A INPUT -j LOGGING"]
                   [["-A"; "INPUT"; "-j"; "LOGGING"]])
    by (repeat constructor).
  assert (Hne : Forall (fun t : list string => t <> [])
                  [["-A"; "INPUT"; "-j"; "LOGGING"]])
    by (repeat constructor; discriminate).
  split; [split; [reflexivity | split; [exact Htok | split; [exact Hne | reflexivity]]]|].
  apply (Chain_rules_blank_line unit
           (always (Completed 0
              (lines_text ["-A INPUT -j LOGGING"; ""; "-A INPUT -j DROP"]) ""))
           {| chain_name := "INPUT"; chain_table := Defaults.filter |}
           (St tt [] []) ["-A INPUT -j LOGGING"] "" ["-A INPUT -j DROP"]
           [["-A"; "INPUT"; "-j"; "LOGGING"]]);
    [split; reflexivity | exact Htok | exact Hne | reflexivity].
Defined.

Lemma Table_list_chains_yields_witness :
  (tokenized ["-P INPUT ACCEPT"; "-P FORWARD DROP"; "-N LOGGING";
              "-A INPUT -j LOGGING"]
     [["-P"; "INPUT"; "ACCEPT"]; ["-P"; "FORWARD"; "DROP"]; ["-N"; "LOGGING"];
      ["-A"; "INPUT"; "-j"; "LOGGING"]]
   /\ Forall (fun t : list string => t <> [] /\
               (directive_is "-P" t || directive_is "-N" t = true ->
                2 <= length t))
        [["-P"; "INPUT"; "ACCEPT"]; ["-P"; "FORWARD"; "DROP"]; ["-N"; "LOGGING"];
         ["-A"; "INPUT"; "-j"; "LOGGING"]])
  /\ fst (Table_list_chains unit
       (always (Completed 0
          (lines_text ["-P INPUT ACCEPT"; "-P FORWARD DROP"; "-N LOGGING";
                       "-A INPUT -j LOGGING"]) ""))
       Defaults.filter (St tt [] []))
     = (["INPUT"; "FORWARD"; "LOGGING"], None).
Proof.
  assert (Htok : tokenized
            ["-P INPUT ACCEPT"; "-P FORWARD DROP"; "-N LOGGING";
             "-A INPUT -j LOGGING"]
            [["-P"; "INPUT"; "ACCEPT"]; ["-P"; "FORWARD"; "DROP"];
             ["-N"; "LOGGING"]; ["-A"; "INPUT"; "-j"; "LOGGING"]])
    by (repeat constructor).
  assert (Hfmt : Forall (fun t : list string => t <> [] /\
               (directive_is "-P" t || directive_is "-N" t = true ->
                2 <= length t))
            [["-P"; "INPUT"; "ACCEPT"]; ["-P"; "FORWARD"; "DROP"];
             ["-N"; "LOGGING"]; ["-A"; "INPUT"; "-j"; "LOGGING"]])
    by (repeat constructor; try discriminate; simpl; lia).
  split; [split; assumption|].
  apply (Table_list_chains_yields unit
           (always (Completed 0
              (lines_text ["-P INPUT ACCEPT"; "-P FORWARD DROP"; "-N LOGGING";
                           "-A INPUT -j LOGGING"]) ""))
           Defaults.filter (St tt [] [])
           ["-P INPUT ACCEPT"; "-P FORWARD DROP"; "-N LOGGING";
            "-A INPUT -j LOGGING"]
           [["-P"; "INPUT"; "ACCEPT"]; ["-P"; "FORWARD"; "DROP"];
            ["-N"; "LOGGING"]; ["-A"; "INPUT"; "-j"; "LOGGING"]]);
    [split; reflexivity | exact Htok | exact Hfmt].
Defined.

(** A default-policy line of another chain comes first. *)
Lemma Chain_policy_first_marker_witness :
  (tokenized ["-N LOGGING"] [["-N"; "LOGGING"]]
   /\ Forall (fun t : list string => t <> [] /\ directive_is "-P" t = false)
        [["-N"; "LOGGING"]]
   /\ Rule_new [Str "-P FORWARD DROP"] = Ret ("-P" :: ["FORWARD"; "DROP"]))
  /\ fst (Chain_policy unit
       (always (Completed 0
          (lines_text ["-N LOGGING"; "-P FORWARD DROP"; "-P INPUT ACCEPT"]) ""))
       {| chain_name := "INPUT"; chain_table := Defaults.filter |} (St tt [] []))
     = Ret "DROP".
Proof.
  assert (Htok : tokenized ["-N LOGGING"] [["-N"; "LOGGING"]])
    by (repeat constructor).
  assert (Hfmt : Forall (fun t : list string =>
                           t <> [] /\ directive_is "-P" t = false)
                   [["-N"; "LOGGING"]])
    by (repeat constructor; discriminate).
  split; [split; [exact Htok | split; [exact Hfmt | reflexivity]]|].
  apply (Chain_policy_first_marker unit
           (always (Completed 0
              (lines_text ["-N LOGGING"; "-P FORWARD DROP"; "-P INPUT ACCEPT"]) ""))
           {| chain_name := "INPUT"; chain_table := Defaults.filter |}
           (St tt [] []) ["-N LOGGING"] "-P FORWARD DROP" ["-P INPUT ACCEPT"]
           [["-N"; "LOGGING"]] ["FORWARD"; "DROP"]);
    [split; reflexivity | exact Htok | exact Hfmt | reflexivity].
Defined.

(** Reading the policy of a chain that the tool does not know. *)
Lemma listing_failure_propagates_witness :
  (completes (list string) tool
     ["iptables"; "-w"; "-t"; "filter"; "-S"; "LOGGING"] (St [] [] [])
   = Completed 1 "" "iptables: No chain/target/match by that name."
   /\ (1 <> 0)%Z
   /\ "iptables: No chain/target/match by that name." <> "")
  /\ fst (Chain_rules (list string) tool
            {| chain_name := "LOGGING"; chain_table := Defaults.filter |}
            (St [] [] []))
     = ([], Some (CommandError
                    ["iptables"; "-w"; "-t"; "filter"; "-S"; "LOGGING"] 1 ""
                    "iptables: No chain/target/match by that name."))
  /\ fst (Chain_policy (list string) tool
            {| chain_name := "LOGGING"; chain_table := Defaults.filter |}
            (St [] [] []))
     = Raise (CommandError
                ["iptables"; "-w"; "-t"; "filter"; "-S"; "LOGGING"] 1 ""
                "iptables: No chain/target/match by that name.").
Proof.
  split; [split; [reflexivity | split; [lia | discriminate]]|].
  apply (listing_failure_propagates (list string) tool
           {| chain_name := "LOGGING"; chain_table := Defaults.filter |}
           (St [] [] [])
           (Completed 1 "" "iptables: No chain/target/match by that name."));
    [reflexivity | simpl; lia | discriminate].
Defined.

(** A listing line with irregular spacing. *)
Lemma Rule_render_stable_witness :
  quote_free "-A  INPUT   -j LOGGING " = true
  /\ exists r,
       Rule_new [Str "-A  INPUT   -j LOGGING "] = Ret r
       /\ forallb plain_token r = true
       /\ Rule_new [Str (Rule_str r)] = Ret r.
Proof.
  split; [reflexivity|].
  exact (Rule_render_stable "-A  INPUT   -j LOGGING " eq_refl).
Defined.

(** Replacing the third rule of a chain when the tool refuses. *)
Lemma write_outcome_witness :
  (write_call unit (always (Completed 1 "" "iptables: Index of replacement too big."))
     Defaults.filter (Chain_replace_call "INPUT" 3 ["-j"; "DROP"])
   = Some (Chain_replace unit
             (always (Completed 1 "" "iptables: Index of replacement too big."))
             {| chain_name := "INPUT"; chain_table := Defaults.filter |}
             3 ["-j"; "DROP"])
   /\ single_command (Chain_replace_call "INPUT" 3 ["-j"; "DROP"])
      = Some ["-R"; "INPUT"; "3"; "-j"; "DROP"])
  /\ fst (Chain_replace unit
            (always (Completed 1 "" "iptables: Index of replacement too big."))
            {| chain_name := "INPUT"; chain_table := Defaults.filter |}
            3 ["-j"; "DROP"] (St tt [] []))
     = Raise (CommandError
                ["iptables"; "-w"; "-t"; "filter"; "-R"; "INPUT"; "3"; "-j"; "DROP"]
                1 "" "iptables: Index of replacement too big.").
Proof.
  split; [split; reflexivity|].
  exact (write_outcome unit
           (always (Completed 1 "" "iptables: Index of replacement too big."))
           Defaults.filter (Chain_replace_call "INPUT" 3 ["-j"; "DROP"])
           _ ["-R"; "INPUT"; "3"; "-j"; "DROP"] (St tt [] [])
           (Completed 1 "" "iptables: Index of replacement too big.")
           eq_refl eq_refl eq_refl).
Defined.

(** Iterating over the chains of a table with one user-defined chain. *)
Lemma ChainFinder_iter_yields_witness :
  snd (fst (ChainFinder_iter unit
              (always (Completed 0 (lines_text ["-P INPUT ACCEPT"; "-N LOGGING"]) ""))
              {| finder_table := Defaults.filter |} (St tt [] [])))
  = None
  /\ fst (fst (ChainFinder_iter unit
                 (always (Completed 0
                    (lines_text ["-P INPUT ACCEPT"; "-N LOGGING"]) ""))
                 {| finder_table := Defaults.filter |} (St tt [] [])))
     = [{| chain_name := "INPUT"; chain_table := Defaults.filter |};
        {| chain_name := "LOGGING"; chain_table := Defaults.filter |}]
  /\ spawned (snd (ChainFinder_iter unit
                     (always (Completed 0
                        (lines_text ["-P INPUT ACCEPT"; "-N LOGGING"]) ""))
                     {| finder_table := Defaults.filter |} (St tt [] [])))
     = [["iptables"; "-w"; "-t"; "filter"; "-S"];
        ["iptables"; "-w"; "-t"; "filter"; "-S"; "INPUT"];
        ["iptables"; "-w"; "-t"; "filter"; "-S"; "LOGGING"]].
Proof.
  split; [reflexivity|].
  exact (proj2 (proj2 (ChainFinder_iter_yields unit
           (always (Completed 0 (lines_text ["-P INPUT ACCEPT"; "-N LOGGING"]) ""))
           {| finder_table := Defaults.filter |} (St tt [] [])) eq_refl)).
Defined.
